(** * Firefox browser API service (app.py): a shallow embedding

    The service keeps one Selenium WebDriver in the module-level variable
    [driver] and exposes FastAPI handlers that drive it.  The handlers are
    embedded as computations in a state-and-exception monad over a
    [World] that holds the global [driver], the logger output and the
    scratch directory.

    The WebDriver itself is an external collaborator.  It is modelled as a
    small state machine (open window handles, current window handle, window
    size) whose answers about page content (title, url, script results,
    screenshot bytes) and whose failures are read from an [oracle]: the list
    of replies the browser will give to the next commands.  Every theorem
    that quantifies over the world therefore quantifies over every pattern
    of driver answers and driver failures.  Each command is also appended to
    the driver's [history], so that statements can speak about which command
    threw.

    The operating system is a second collaborator: creating the scratch
    directory, opening a file and writing to it go through unless the next
    entry of the world's [disk] says that the call fails.

    Handlers run to completion one at a time, which is what [driver_lock]
    enforces; the lock itself and [time.sleep] carry no state here. *)

From Stdlib Require Import ZArith QArith List String Ascii Bool Lia DecimalString.
Import ListNotations.
Close Scope Q_scope.
Open Scope Z_scope.
Open Scope string_scope.

Set Implicit Arguments.

(** ** Python values and exceptions *)

(** Values that cross the WebDriver boundary ([execute_script] results). *)
#[warnings="-register-all"]
Inductive pyval : Type :=
| PNone
| PBool (b : bool)
| PInt (z : Z)
| PFloat (q : Q)
| PStr (s : string)
| PList (l : list pyval)
| PDict (l : list (string * pyval))
| POther (repr : string).

(** The exception classes the handlers meet.  All of them derive from
    [Exception]; the selenium ones carry the text [str(e)] gives. *)
Inductive exn : Type :=
| HTTPException (status_code : Z) (detail : string) (headers : list (string * string))
| TimeoutException (msg : string)
| NoSuchElementException (msg : string)
| NoSuchWindowException (msg : string)
| WebDriverException (msg : string)
| TypeError (msg : string)
| IndexError (msg : string)
| AttributeError (msg : string)
| ValueError (msg : string)
| OSError (msg : string).

Definition str_of_Z (z : Z) : string := NilZero.string_of_int (Z.to_int z).

(** [str(e)]; for [HTTPException] this is starlette's
    ["{status_code}: {detail}"]. *)
Definition str (e : exn) : string :=
  match e with
  | HTTPException c d _ => str_of_Z c ++ ": " ++ d
  | TimeoutException m | NoSuchElementException m | NoSuchWindowException m
  | WebDriverException m | TypeError m | IndexError m | AttributeError m
  | ValueError m | OSError m => m
  end.

Inductive result (A : Type) : Type :=
| Ret (a : A)
| Raise (e : exn).
Arguments Ret {A} a.
Arguments Raise {A} e.

(** [int(s)] on a string: blanks around an optional sign and decimal digits,
    between which single underscores may stand; no more than 4300 digits,
    the default limit of the interpreter. *)
Definition is_blank (c : ascii) : bool :=
  let n := nat_of_ascii c in
  (n =? 32)%nat || ((9 <=? n)%nat && (n <=? 13)%nat) || ((28 <=? n)%nat && (n <=? 31)%nat).

Fixpoint lstrip (cs : list ascii) : list ascii :=
  match cs with
  | c :: rest => if is_blank c then lstrip rest else cs
  | [] => []
  end.

Definition strip (cs : list ascii) : list ascii := rev (lstrip (rev (lstrip cs))).

Definition digit_of (c : ascii) : option Z :=
  let n := nat_of_ascii c in
  if (48 <=? n)%nat && (n <=? 57)%nat then Some (Z.of_nat n - 48) else None.

Fixpoint digits (acc : Z) (after_digit : bool) (cs : list ascii) : option Z :=
  match cs with
  | [] => if after_digit then Some acc else None
  | c :: rest =>
      match digit_of c with
      | Some k => digits (10 * acc + k) true rest
      | None => if Ascii.eqb c "_"%char && after_digit then digits acc false rest else None
      end
  end.

Definition max_str_digits : nat := 4300.

Definition is_digit (c : ascii) : bool :=
  match digit_of c with
  | Some _ => true
  | None => false
  end.

Definition int_of_string (s : string) : option Z :=
  let cs := strip (list_ascii_of_string s) in
  if (max_str_digits <? List.length (filter is_digit cs))%nat then None
  else
    match cs with
    | c :: rest =>
        if Ascii.eqb c "-"%char then option_map Z.opp (digits 0 false rest)
        else if Ascii.eqb c "+"%char then digits 0 false rest
        else digits 0 false (c :: rest)
    | [] => None
    end.

(** Python truthiness, [int(x)] and [x <= 0] on the values above. *)
Definition truthy (v : pyval) : bool :=
  match v with
  | PNone => false
  | PBool b => b
  | PInt z => negb (z =? 0)%Z
  | PFloat q => negb (Qeq_bool q 0%Q)
  | PStr s => negb (s =? "")%string
  | PList l => match l with [] => false | _ => true end
  | PDict l => match l with [] => false | _ => true end
  | POther _ => true
  end.

Definition py_int (v : pyval) : result Z :=
  match v with
  | PInt z => Ret z
  | PBool b => Ret (if b then 1 else 0)
  | PFloat q => Ret (Z.quot (Qnum q) (Zpos (Qden q)))
  | PStr s => match int_of_string s with
              | Some z => Ret z
              | None => Raise (ValueError ("invalid literal for int() with base 10: '" ++ s ++ "'"))
              end
  | _ => Raise (TypeError "int() argument must be a string, a bytes-like object or a real number")
  end.

Definition py_le_zero (v : pyval) : result bool :=
  match v with
  | PInt z => Ret (z <=? 0)%Z
  | PBool b => Ret (negb b)
  | PFloat q => Ret (Qle_bool q 0%Q)
  | _ => Raise (TypeError "'<=' not supported between these instances")
  end.

Definition py_eq_str (v : pyval) (s : string) : bool :=
  match v with
  | PStr t => (t =? s)%string
  | _ => false
  end.

(** [x in xs] on a list of strings. *)
Fixpoint py_in (x : string) (xs : list string) : bool :=
  match xs with
  | [] => false
  | y :: ys => (x =? y)%string || py_in x ys
  end.

(** ** The WebDriver *)

Inductive command : Type :=
| CmdGet (url : string)
| CmdTitle
| CmdCurrentUrl
| CmdWindowHandles
| CmdCurrentWindowHandle
| CmdSwitchToWindow (handle : string)
| CmdClose
| CmdExecuteScript (script : string)
| CmdScreenshot
| CmdGetWindowSize
| CmdSetWindowSize (width height : Z)
| CmdQuit.

(** What the browser answers to one command: it throws [fault] when that is
    set; otherwise the command takes from the reply the piece it returns.
    [after] is read only when the command runs a script whose text the
    service does not know: the open tabs and the window size the script
    leaves behind, or [None] when it leaves them as they were. *)
Record reply : Type := mkReply {
  fault : option exn;
  text : string;
  value : pyval;
  png : list Byte.byte;
  after : option (list string * (Z * Z))
}.

Definition default_reply : reply := mkReply None "" PNone [] None.

Record WebDriver : Type := mkDriver {
  handles : list string;
  current : string;
  size : Z * Z;
  oracle : list reply;
  history : list (command * reply)
}.

Definition D (A : Type) : Type := WebDriver -> result A * WebDriver.

(** One round trip: take the next reply, record it, throw if it is a fault. *)
Definition call {A} (c : command) (k : reply -> D A) : D A :=
  fun d =>
    let r := hd default_reply (oracle d) in
    let d1 := mkDriver (handles d) (current d) (size d) (tl (oracle d))
                       ((c, r) :: history d) in
    match fault r with
    | Some e => (Raise e, d1)
    | None => k r d1
    end.

Definition set_current (h : string) (d : WebDriver) : WebDriver :=
  mkDriver (handles d) h (size d) (oracle d) (history d).
Definition set_handles (hs : list string) (d : WebDriver) : WebDriver :=
  mkDriver hs (current d) (size d) (oracle d) (history d).
Definition set_size (s : Z * Z) (d : WebDriver) : WebDriver :=
  mkDriver (handles d) (current d) s (oracle d) (history d).

Module driver.

Definition get (url : string) : D unit :=
  call (CmdGet url) (fun _ d => (Ret tt, d)).

Definition title : D string :=
  call CmdTitle (fun r d => (Ret (text r), d)).

Definition current_url : D string :=
  call CmdCurrentUrl (fun r d => (Ret (text r), d)).

Definition window_handles : D (list string) :=
  call CmdWindowHandles (fun _ d => (Ret (handles d), d)).

Definition current_window_handle : D string :=
  call CmdCurrentWindowHandle (fun _ d => (Ret (current d), d)).

(** [driver.switch_to.window(handle)] *)
Definition switch_to_window (handle : string) : D unit :=
  call (CmdSwitchToWindow handle) (fun _ d =>
    if py_in handle (handles d) then (Ret tt, set_current handle d)
    else (Raise (NoSuchWindowException handle), d)).

(** [driver.close()] closes the current window; the current handle dangles
    until the next switch. *)
Definition close : D unit :=
  call CmdClose (fun _ d =>
    (Ret tt, set_handles (filter (fun h => negb (h =? current d)%string) (handles d)) d)).

(** What a script does to the tabs and the window is read off its text
    where the text is one the service itself sends: [window.open('')] opens
    a window, and the six expressions the waits and the screenshots evaluate
    only read the page.  Of any other script nothing is known. *)
Inductive script_kind : Type := OpensWindow | ReadsPage | Unknown.

Definition reading_scripts : list string :=
  ["return document.readyState";
   "return Array.from(document.images).every(img => img.complete)";
   "return document.body.scrollWidth";
   "return document.body.scrollHeight";
   "return window.innerWidth";
   "return window.innerHeight"].

Definition kind_of (script : string) : script_kind :=
  if (script =? "window.open('');")%string then OpensWindow
  else if py_in script reading_scripts then ReadsPage
  else Unknown.

(** The tabs and the window after the script has run.  A window that
    [window.open('')] opens gets the handle the browser chooses; a script of
    unknown text leaves what the reply says, whether it returns or throws:
    it can open tabs, close them (the current one included, whose handle
    then dangles) and resize the window before it throws. *)
Definition script_effect (k : script_kind) (r : reply) (d : WebDriver) : WebDriver :=
  match k with
  | OpensWindow =>
      match fault r with
      | None => set_handles (handles d ++ [text r])%list d
      | Some _ => d
      end
  | ReadsPage => d
  | Unknown =>
      match after r with
      | Some (hs, sz) => set_size sz (set_handles hs d)
      | None => d
      end
  end.

Definition execute_script (script : string) : D pyval :=
  fun d =>
    let r := hd default_reply (oracle d) in
    let d1 := script_effect (kind_of script) r
                (mkDriver (handles d) (current d) (size d) (tl (oracle d))
                          ((CmdExecuteScript script, r) :: history d)) in
    match fault r with
    | Some e => (Raise e, d1)
    | None => (Ret (value r), d1)
    end.

Definition get_screenshot_as_png : D (list Byte.byte) :=
  call CmdScreenshot (fun r d => (Ret (png r), d)).

Definition get_window_size : D (Z * Z) :=
  call CmdGetWindowSize (fun _ d => (Ret (size d), d)).

(** selenium converts with [int(width)], [int(height)] before it sends the
    command, and the size asked for is the size the window gets.  selenium
    refuses a request for 0 x 0 without sending anything; that refusal is
    left out here, and the statements about [take_full_page_screenshot],
    which asks for whatever size the page reports, exclude such a request. *)
Definition set_window_size (width height : pyval) : D unit :=
  fun d =>
    match py_int width, py_int height with
    | Ret w, Ret h => call (CmdSetWindowSize w h) (fun _ d' => (Ret tt, set_size (w, h) d')) d
    | Raise e, _ => (Raise e, d)
    | _, Raise e => (Raise e, d)
    end.

Definition quit : D unit :=
  call CmdQuit (fun _ d => (Ret tt, d)).

End driver.

(** [WebDriverWait(driver, timeout).until(method)]: poll every half second
    until [method] is truthy; [NoSuchElementException] is ignored, any other
    exception leaves the loop, and running out of time raises
    [TimeoutException].  Time is counted in polls. *)
Fixpoint until (polls : nat) (method : D pyval) : D pyval :=
  match polls with
  | O => fun d => (Raise (TimeoutException "Message: "), d)
  | S n => fun d =>
      match method d with
      | (Ret v, d') => if truthy v then (Ret v, d') else until n method d'
      | (Raise (NoSuchElementException _), d') => until n method d'
      | (Raise e, d') => (Raise e, d')
      end
  end.

Definition polls_of (timeout : Z) : nat := S (Z.to_nat (2 * timeout)).

Definition WebDriverWait_until (timeout : Z) (method : D pyval) : D pyval :=
  until (polls_of timeout) method.

(** ** The process state *)

Inductive level : Type := INFO | WARNING | ERROR.

Record World : Type := mkWorld {
  the_driver : option WebDriver;          (* the global [driver] *)
  log : list (level * string);            (* logger output, newest first *)
  dirs : list string;                     (* directories that exist *)
  files : list (string * list Byte.byte); (* files written, newest first *)
  uuids : list string;                    (* what uuid.uuid4() returns next *)
  disk : list (option string)             (* the next answers of the operating
                                             system: the error text when the
                                             call fails *)
}.

Definition M (A : Type) : Type := World -> result A * World.

Definition ret {A} (a : A) : M A := fun w => (Ret a, w).
Definition raise {A} (e : exn) : M A := fun w => (Raise e, w).
Definition bind {A B} (m : M A) (k : A -> M B) : M B :=
  fun w => match m w with
           | (Ret a, w') => k a w'
           | (Raise e, w') => (Raise e, w')
           end.

Notation "x <- m ;; k" := (bind m (fun x => k))
  (at level 61, m at next level, right associativity).
Notation "m ;; k" := (bind m (fun _ => k))
  (at level 61, right associativity).

(** [try: body except ... as e: handler e] *)
Definition try_except {A} (body : M A) (handler : exn -> M A) : M A :=
  fun w => match body w with
           | (Ret a, w') => (Ret a, w')
           | (Raise e, w') => handler e w'
           end.

Definition set_driver (o : option WebDriver) (w : World) : World :=
  mkWorld o (log w) (dirs w) (files w) (uuids w) (disk w).

(** A command on the object the global [driver] refers to. *)
Definition drv {A} (c : D A) : M A :=
  fun w => match the_driver w with
           | None => (Raise (AttributeError "'NoneType' object has no attribute"), w)
           | Some d => let (r, d') := c d in (r, set_driver (Some d') w)
           end.

Definition logger (l : level) (msg : string) : M unit :=
  fun w => (Ret tt, mkWorld (the_driver w) ((l, msg) :: log w) (dirs w) (files w) (uuids w)
                            (disk w)).

Fixpoint read_file (p : string) (fs : list (string * list Byte.byte)) : option (list Byte.byte) :=
  match fs with
  | [] => None
  | (q, data) :: rest => if (p =? q)%string then Some data else read_file p rest
  end.

Definition is_file (p : string) (fs : list (string * list Byte.byte)) : bool :=
  match read_file p fs with
  | Some _ => true
  | None => false
  end.

Fixpoint has_slash (p : string) : bool :=
  match p with
  | EmptyString => false
  | String c rest => Ascii.eqb c "/"%char || has_slash rest
  end.

(** [p] names something inside one of the directories [ds], or has no
    directory part. *)
Definition in_directory (p : string) (ds : list string) : bool :=
  negb (has_slash p) || existsb (fun dir => prefix (dir ++ "/") p) ds.

(** A regular file stands where [p] needs a directory. *)
Definition under_file (p : string) (fs : list (string * list Byte.byte)) : bool :=
  existsb (fun f => prefix (fst f ++ "/") p) fs.

(** One call into the operating system: it fails with the error the next
    entry of [disk] names, or goes through and has its effect. *)
Definition syscall (effect : World -> World) : M unit :=
  fun w =>
    let w1 := mkWorld (the_driver w) (log w) (dirs w) (files w) (uuids w) (tl (disk w)) in
    match hd None (disk w) with
    | Some msg => (Raise (OSError msg), w1)
    | None => (Ret tt, effect w1)
    end.

Definition add_dir (p : string) (w : World) : World :=
  mkWorld (the_driver w) (log w) (p :: dirs w) (files w) (uuids w) (disk w).
Definition put_file (p : string) (data : list Byte.byte) (w : World) : World :=
  mkWorld (the_driver w) (log w) (dirs w) ((p, data) :: files w) (uuids w) (disk w).

(** [os.path.exists] is true of directories and of files, and does not
    raise. *)
Definition path_exists (p : string) : M bool :=
  fun w => (Ret (py_in p (dirs w) || is_file p (files w)), w).

(** [os.makedirs(p)] refuses a path that exists. *)
Definition makedirs (p : string) : M unit :=
  fun w =>
    if py_in p (dirs w) || is_file p (files w)
    then (Raise (OSError ("[Errno 17] File exists: '" ++ p ++ "'")), w)
    else syscall (add_dir p) w.

(** [open(p, 'wb')]: [p] must not be a directory and must lie in one; the
    file is created, or emptied when it exists. *)
Definition open_wb (p : string) : M unit :=
  fun w =>
    if py_in p (dirs w)
    then (Raise (OSError ("[Errno 21] Is a directory: '" ++ p ++ "'")), w)
    else if negb (in_directory p (dirs w))
    then (Raise (OSError (if under_file p (files w)
                          then "[Errno 20] Not a directory: '" ++ p ++ "'"
                          else "[Errno 2] No such file or directory: '" ++ p ++ "'")), w)
    else syscall (put_file p []) w.

(** [f.write(data)] and the flush when the [with] block closes the file. *)
Definition file_write (p : string) (data : list Byte.byte) : M unit :=
  syscall (put_file p data).

(** [with open(p, 'wb') as f: f.write(data)] *)
Definition write_file (p : string) (data : list Byte.byte) : M unit :=
  fun w =>
    match open_wb p w with
    | (Ret _, w1) => file_write p data w1
    | (Raise e, w1) => (Raise e, w1)
    end.

Definition uuid4 : M string :=
  fun w => (Ret (hd "00000000-0000-4000-8000-000000000000" (uuids w)),
            mkWorld (the_driver w) (log w) (dirs w) (files w) (tl (uuids w)) (disk w)).

(** ** app.py *)

Definition not_started : string := "浏览器未启动".

Definition get_driver : M WebDriver :=
  fun w => match the_driver w with
           | None => (Raise (HTTPException 400 not_started []), w)
           | Some d => (Ret d, w)
           end.

Definition format_url (url : string) : string :=
  if negb (prefix "http://" url || prefix "https://" url)
  then "https://" ++ url
  else url.

(** The decorator [with_browser]: an [HTTPException] is re-raised as it is,
    anything else becomes a 500. *)
Definition with_browser {A} (func : M A) : M A :=
  try_except func (fun e =>
    match e with
    | HTTPException _ _ _ => raise e
    | _ => raise (HTTPException 500 ("操作失败: " ++ str e) [])
    end).

(** *** Request and response models *)

Record URLRequest : Type := mkURLRequest { req_url : string }.

(** [handle: Optional[str] = None], [url: Optional[str] = "about:blank"] *)
Record TabRequest : Type := mkTabRequest {
  req_handle : option string;
  req_tab_url : option string
}.

Record ScriptRequest : Type := mkScriptRequest { req_script : string }.

Record TabInfo : Type := mkTabInfo {
  tab_handle : string;
  tab_title : string;
  tab_url : string;
  is_current : bool
}.

Inductive response : Type :=
| BasicResponse (title url : string)
| TabOperationResponse (url title window_handle : string)
| RemainingTabsResponse (remaining_tabs : Z)
| TabListResponse (tabs : list TabInfo) (count : Z)
| ScriptResponse (result : pyval)
| StatusStopped                                   (* browser_running = False *)
| StatusResponse (title url : string) (window_handles : list string)
                 (current_window_handle : string) (tabs_count : Z)
| FileResponse (path media_type filename : string).

(** Truthiness of an [Optional[str]]: [None] and the empty string are falsy. *)
Definition str_truthy (o : option string) : bool :=
  match o with
  | None => false
  | Some s => negb (s =? "")%string
  end.

(** [o or default] *)
Definition str_or (o : option string) (default : string) : string :=
  if str_truthy o then match o with Some s => s | None => default end else default.

Definition lift {A} (r : result A) : M A := fun w => (r, w).

Definition py_len {A} (l : list A) : Z := Z.of_nat (List.length l).

(** [xs[0]] and [xs[-1]] *)
Definition py_first (xs : list string) : result string :=
  match xs with
  | [] => Raise (IndexError "list index out of range")
  | x :: _ => Ret x
  end.
Definition py_last (xs : list string) : result string :=
  match xs with
  | [] => Raise (IndexError "list index out of range")
  | _ => Ret (last xs "")
  end.

(** *** Waiting for the page *)

(** [lambda d: d.execute_script("return document.readyState") == "complete"] *)
Definition ready_state_complete : D pyval :=
  fun d => match driver.execute_script "return document.readyState" d with
           | (Ret v, d') => (Ret (PBool (py_eq_str v "complete")), d')
           | (Raise e, d') => (Raise e, d')
           end.

Definition images_complete : D pyval :=
  driver.execute_script "return Array.from(document.images).every(img => img.complete)".

Definition wait_for_page_load (timeout : Z) : M unit :=
  try_except
    (drv (WebDriverWait_until timeout ready_state_complete);;
     drv (WebDriverWait_until 10 images_complete);;
     logger INFO "页面加载完成")
    (fun e => match e with
              | TimeoutException _ => logger WARNING "等待页面加载超时，继续截图"
              | _ => logger WARNING ("等待页面加载时发生错误: " ++ str e)
              end).

Definition wait_for_page_load_safely (timeout : Z) : M unit :=
  try_except
    (drv (WebDriverWait_until timeout ready_state_complete);;
     logger INFO "页面基本加载完成")
    (fun e => match e with
              | TimeoutException _ => logger WARNING "等待页面加载超时，继续截图"
              | _ => logger WARNING ("等待页面加载时发生错误: " ++ str e)
              end).

(** *** Screenshots *)

Definition restore_size (original_size : Z * Z) : D unit :=
  driver.set_window_size (PInt (fst original_size)) (PInt (snd original_size)).


Definition capture_failed : exn :=
  HTTPException 500 "截图功能完全失败，请重启浏览器" [].

Definition take_full_page_screenshot_safely : M (list Byte.byte) :=
  try_except
    (backup_screenshot <- drv driver.get_screenshot_as_png;;
     try_except
       (total_width <- drv (driver.execute_script "return document.body.scrollWidth");;
        total_height <- drv (driver.execute_script "return document.body.scrollHeight");;
        unreasonable <- (w_bad <- lift (py_le_zero total_width);;
                         if w_bad : bool then ret true else lift (py_le_zero total_height));;
        total <- (if unreasonable : bool
                  then logger WARNING "获取的页面尺寸不合理，使用默认尺寸";;
                       ret (PInt 1920, PInt 1080)
                  else ret (total_width, total_height));;
        current_width <- drv (driver.execute_script "return window.innerWidth");;
        current_height <- drv (driver.execute_script "return window.innerHeight");;
        original_size <- drv driver.get_window_size;;
        try_except
          (drv (driver.set_window_size (fst total) (snd total));;
           screenshot <- drv driver.get_screenshot_as_png;;
           drv (restore_size original_size);;
           ret screenshot)
          (fun e => logger WARNING ("调整窗口尺寸失败: " ++ str e);;
                    try_except (drv (restore_size original_size)) (fun _ => ret tt);;
                    ret backup_screenshot))
       (fun e => logger WARNING ("获取页面尺寸失败: " ++ str e);;
                 ret backup_screenshot))
    (fun e => logger ERROR ("安全截图失败: " ++ str e);;
              try_except (drv driver.get_screenshot_as_png)
                (fun final_error =>
                   logger ERROR ("最终截图方案也失败: " ++ str final_error);;
                   raise capture_failed)).

Definition connection_failed : exn :=
  HTTPException 500 "浏览器连接失败，请重启浏览器" [].

Definition take_screenshot : M response :=
  fun w =>
    match the_driver w with
    | None => (Raise (HTTPException 422 not_started []), w)
    | Some _ =>
        try_except
          (try_except (drv driver.current_url;; ret tt)
             (fun e => logger ERROR ("浏览器连接失败: " ++ str e);;
                       raise connection_failed);;
           wait_for_page_load_safely 15;;
           screenshot <- try_except
                           (s <- drv driver.get_screenshot_as_png;;
                            logger INFO "简单截图成功";;
                            ret s)
                           (fun e => logger WARNING ("简单截图失败，尝试完整页面截图: " ++ str e);;
                                     take_full_page_screenshot_safely);;
           let temp_dir := "temp" in
           present <- path_exists temp_dir;;
           (if present : bool then ret tt else makedirs temp_dir);;
           u <- uuid4;;
           let filename := temp_dir ++ "/screenshot_" ++ u ++ ".png" in
           write_file filename screenshot;;
           ret (FileResponse filename "image/png" "screenshot.png"))
          (fun e => match e with
                    | HTTPException _ _ _ => raise e
                    | _ => logger ERROR ("截图失败: " ++ str e);;
                           raise (HTTPException 500 ("截图失败: " ++ str e) [])
                    end) w
    end.

(** *** Navigation and tabs *)

(** [format_url] cannot raise, so computing [url] just before the [try]
    instead of as its first statement changes nothing. *)
Definition navigate_to_url (request : URLRequest) : M response :=
  fun w =>
    match the_driver w with
    | None => (Raise (HTTPException 422 not_started []), w)
    | Some _ =>
        let url := format_url (req_url request) in
        try_except
          (drv (driver.get url);;
           wait_for_page_load 30;;
           title <- drv driver.title;;
           current_url <- drv driver.current_url;;
           ret (BasicResponse title current_url))
          (fun e => match e with
                    | TimeoutException _ =>
                        logger WARNING ("导航到 " ++ url ++ " 超时");;
                        title <- drv driver.title;;
                        current_url <- drv driver.current_url;;
                        ret (BasicResponse title current_url)
                    | _ =>
                        logger ERROR ("导航到 " ++ url ++ " 失败: " ++ str e);;
                        raise (HTTPException 500 ("导航失败: " ++ str e) [])
                    end) w
    end.

Definition open_new_tab (request : TabRequest) : M response :=
  fun w =>
    match the_driver w with
    | None => (Raise (HTTPException 422 not_started []), w)
    | Some _ =>
        try_except
          (drv (driver.execute_script "window.open('');");;
           hs <- drv driver.window_handles;;
           newest <- lift (py_last hs);;
           drv (driver.switch_to_window newest);;
           let url := str_or (req_tab_url request) "about:blank" in
           url <- (if negb (url =? "") && negb (url =? "about:blank")
                   then let url := format_url url in
                        drv (driver.get url);;
                        wait_for_page_load 30;;
                        ret url
                   else ret url);;
           title <- drv driver.title;;
           window_handle <- drv driver.current_window_handle;;
           ret (TabOperationResponse url title window_handle))
          (fun e => logger ERROR ("打开新标签页失败: " ++ str e);;
                    raise (HTTPException 500 ("打开新标签页失败: " ++ str e) [])) w
    end.

(** The body of [for handle in driver.window_handles: ...] *)
Fixpoint list_tabs_loop (hs : list string) (current_handle : string)
         (tabs : list TabInfo) : M (list TabInfo) :=
  match hs with
  | [] => ret tabs
  | handle :: rest =>
      drv (driver.switch_to_window handle);;
      title <- drv driver.title;;
      url <- drv driver.current_url;;
      list_tabs_loop rest current_handle
        (tabs ++ [mkTabInfo handle title url (handle =? current_handle)])%list
  end.

Definition list_tabs : M response :=
  fun w =>
    match the_driver w with
    | None => (Raise (HTTPException 422 not_started []), w)
    | Some _ =>
        try_except
          (current_handle <- drv driver.current_window_handle;;
           hs <- drv driver.window_handles;;
           tabs <- list_tabs_loop hs current_handle [];;
           drv (driver.switch_to_window current_handle);;
           ret (TabListResponse tabs (py_len tabs)))
          (fun e => logger ERROR ("获取标签页列表失败: " ++ str e);;
                    raise (HTTPException 500 ("获取标签页列表失败: " ++ str e) [])) w
    end.

Definition missing_handle : exn := HTTPException 400 "缺少标签页句柄参数" [].
Definition tab_not_found : exn := HTTPException 404 "指定的标签页不存在" [].
Definition last_tab_error : exn := HTTPException 400 "不能关闭最后一个标签页" [].

Definition switch_tab (request : TabRequest) : M response :=
  fun w =>
    if negb (str_truthy (req_handle request)) then (Raise missing_handle, w)
    else
      match the_driver w with
      | None => (Raise (HTTPException 422 not_started []), w)
      | Some _ =>
          let handle := str_or (req_handle request) "" in
          try_except
            (hs <- drv driver.window_handles;;
             (if negb (py_in handle hs) then raise tab_not_found else ret tt);;
             drv (driver.switch_to_window handle);;
             title <- drv driver.title;;
             current_url <- drv driver.current_url;;
             ret (BasicResponse title current_url))
            (fun e => logger ERROR ("切换标签页失败: " ++ str e);;
                      raise (HTTPException 500 ("切换标签页失败: " ++ str e) [])) w
      end.

Definition close_tab (request : TabRequest) : M response :=
  fun w =>
    match the_driver w with
    | None => (Raise (HTTPException 422 not_started []), w)
    | Some _ =>
        try_except
          (tab_handle <- (if str_truthy (req_handle request)
                          then ret (str_or (req_handle request) "")
                          else drv driver.current_window_handle);;
           hs <- drv driver.window_handles;;
           (if negb (py_in tab_handle hs) then raise tab_not_found else ret tt);;
           hs1 <- drv driver.window_handles;;
           (if (py_len hs1 =? 1)%Z then raise last_tab_error else ret tt);;
           drv (driver.switch_to_window tab_handle);;
           drv driver.close;;
           hs2 <- drv driver.window_handles;;
           first <- lift (py_first hs2);;
           drv (driver.switch_to_window first);;
           hs3 <- drv driver.window_handles;;
           ret (RemainingTabsResponse (py_len hs3)))
          (fun e => logger ERROR ("关闭标签页失败: " ++ str e);;
                    raise (HTTPException 500 ("关闭标签页失败: " ++ str e) [])) w
    end.

(** *** Scripts and status *)

(** [json.loads(json.dumps(result, default=str))]: what JSON cannot carry is
    replaced by its [str]. *)
Fixpoint json_roundtrip (v : pyval) : pyval :=
  match v with
  | PList l => PList (map json_roundtrip l)
  | PDict l => PDict (map (fun '(k, x) => (k, json_roundtrip x)) l)
  | POther r => PStr r
  | _ => v
  end.

(** The chain of [isinstance] tests on the script's result.  On the values
    modelled here the round trip cannot raise, so the handler's fallback for a
    failed serialization has nothing to catch. *)
Definition serialize_result (v : pyval) : pyval :=
  match v with
  | PNone => PNone
  | PStr _ | PInt _ | PFloat _ | PBool _ => v
  | PList _ | PDict _ => json_roundtrip v
  | POther r => PStr r
  end.

Definition json_headers : list (string * string) := [("Content-Type", "application/json")].
Definition missing_script : exn := HTTPException 400 "缺少JavaScript代码" json_headers.

Definition execute_script (request : ScriptRequest) : M response :=
  fun w =>
    if (req_script request =? "")%string then (Raise missing_script, w)
    else
      match the_driver w with
      | None => (Raise (HTTPException 422 not_started json_headers), w)
      | Some _ =>
          try_except
            (result <- drv (driver.execute_script (req_script request));;
             ret (ScriptResponse (serialize_result result)))
            (fun e => logger ERROR ("执行JavaScript代码失败: " ++ str e);;
                      raise (HTTPException 500 ("执行JavaScript代码失败: " ++ str e) json_headers)) w
      end.

Definition get_status : M response :=
  fun w =>
    match the_driver w with
    | None => (Ret StatusStopped, w)
    | Some _ =>
        (title <- drv driver.title;;
         url <- drv driver.current_url;;
         window_handles <- drv driver.window_handles;;
         current_window_handle <- drv driver.current_window_handle;;
         hs <- drv driver.window_handles;;
         ret (StatusResponse title url window_handles current_window_handle (py_len hs))) w
    end.

(** The shutdown half of [lifespan]. *)
Definition shutdown : M unit :=
  fun w =>
    match the_driver w with
    | None => (Ret tt, w)
    | Some _ =>
        (drv driver.quit;;
         (fun w' => (Ret tt, set_driver None w'));;
         logger INFO "应用关闭时自动退出浏览器成功") w
    end.

(** The operations the service offers besides start and status. *)
Inductive operation : Type :=
| OpNavigate (request : URLRequest)
| OpOpenTab (request : TabRequest)
| OpListTabs
| OpSwitchTab (request : TabRequest)
| OpCloseTab (request : TabRequest)
| OpExecuteScript (request : ScriptRequest)
| OpScreenshot.

Definition run (op : operation) : M response :=
  match op with
  | OpNavigate request => navigate_to_url request
  | OpOpenTab request => open_new_tab request
  | OpListTabs => list_tabs
  | OpSwitchTab request => switch_tab request
  | OpCloseTab request => close_tab request
  | OpExecuteScript request => execute_script request
  | OpScreenshot => take_screenshot
  end.

(** The failure kinds of the interface, read off the exception raised. *)
Definition is_NotRunning (e : exn) : bool :=
  match e with
  | HTTPException _ detail _ => (detail =? not_started)%string
  | _ => false
  end.

(** ** Sample worlds *)

Definition answers (t : string) : reply := mkReply None t PNone [] None.
Definition returns (v : pyval) : reply := mkReply None "" v [] None.
Definition captures (image : list Byte.byte) : reply := mkReply None "" PNone image None.
Definition throws (e : exn) : reply := mkReply (Some e) "" PNone [] None.

Definition no_browser : World := mkWorld None [] [] [] [] [].

(** A running browser with the given tabs whose next replies are [replies]. *)
Definition browser (tabs : list string) (cur : string) (replies : list reply) : World :=
  mkWorld (Some (mkDriver tabs cur (2560, 1440) replies [])) [] [] [] [] [].

Definition oracle_of (w : World) : list reply :=
  match the_driver w with Some d => oracle d | None => [] end.
Definition current_of (w : World) : option string := option_map current (the_driver w).
Definition size_of (w : World) : option (Z * Z) := option_map size (the_driver w).
Definition history_of (w : World) : list (command * reply) :=
  match the_driver w with Some d => history d | None => [] end.

(** The two handlers that check their input before they look at the session. *)
Definition input_missing (op : operation) : bool :=
  match op with
  | OpSwitchTab request => negb (str_truthy (req_handle request))
  | OpExecuteScript request => (req_script request =? "")%string
  | _ => false
  end.

Definition marionette_down : exn :=
  WebDriverException "Message: Failed to decode response from marionette".

(** Two tabs, the second current; the driver answers the whole enumeration. *)
Definition two_tabs : World :=
  browser ["tab-1"; "tab-2"] "tab-2"
    [default_reply; default_reply;
     default_reply; answers "Bing"; answers "https://www.bing.com/";
     default_reply; answers "Example Domain"; answers "https://example.com/"].

(** The driver stops answering while the second of two tabs is being read. *)
Definition two_tabs_second_hangs : World :=
  browser ["tab-1"; "tab-2"] "tab-1"
    [default_reply; default_reply;
     default_reply; answers "Bing"; answers "https://www.bing.com/";
     default_reply; throws (TimeoutException "Message: Navigation timed out")].

Definition png_magic : list Byte.byte := [Byte.x89; Byte.x50; Byte.x4e; Byte.x47].

(** A page 1280 wide and 4000 high in a 2560 x 1440 window: the backup
    capture, the four geometry scripts, the window size and the resize are
    answered; [after_resize] is what the driver does next. *)
Definition tall_page (after_resize : list reply) : World :=
  browser ["tab-1"] "tab-1"
    ([captures png_magic;
      returns (PInt 1280); returns (PInt 4000); returns (PInt 2560); returns (PInt 1300);
      default_reply; default_reply] ++ after_resize)%list.

Definition out_of_memory : exn := WebDriverException "Message: Cannot take screenshot".

(** ** Predicates on runs *)

Definition is_script (e : command * reply) : Prop :=
  exists s, fst e = CmdExecuteScript s.

(** What polling the page does to the driver: it consumes replies and adds
    script calls to the history; tabs and window size stay. *)
Record polled (d d' : WebDriver) : Prop := mkPolled {
  polled_handles : handles d' = handles d;
  polled_current : current d' = current d;
  polled_size : size d' = size d;
  polled_oracle : exists k, oracle d' = skipn k (oracle d);
  polled_history : exists ev, history d' = (ev ++ history d)%list /\ Forall is_script ev
}.

(** The world after a wait: same files, same tabs, the driver polled. *)
Record waited (w w' : World) : Prop := mkWaited {
  waited_driver : exists d d', the_driver w = Some d /\ the_driver w' = Some d' /\ polled d d';
  waited_dirs : dirs w' = dirs w;
  waited_files : files w' = files w;
  waited_uuids : uuids w' = uuids w;
  waited_disk : disk w' = disk w
}.

(** The driver answers every one of these replies. *)
Definition answering (rs : list reply) : Prop := Forall (fun r => fault r = None) rs.

Definition navigation_times_out : World :=
  browser ["tab-1"] "tab-1"
    [throws (TimeoutException "Message: Navigation timed out after 30000 ms");
     answers "Slow page"; answers "https://slow.example/"].

(** The page is ready at the first poll, the plain capture throws, the
    backup capture works and the first geometry script throws. *)
Definition geometry_throws : World :=
  mkWorld (Some (mkDriver ["tab-1"] "tab-1" (2560, 1440)
                   [answers "https://www.bing.com/";
                    returns (PStr "complete");
                    throws out_of_memory;
                    captures png_magic;
                    throws (WebDriverException "Message: TypeError: document.body is null")]
                   []))
          [] [] [] ["3f2b8c1e-6d0a-4c57-9e42-0a1b2c3d4e5f"] [].

Definition probe_throws : World :=
  browser ["tab-1"] "tab-1" [throws marionette_down].

(** The file the next screenshot is written to. *)
Definition scratch_path (w : World) : string :=
  "temp" ++ "/screenshot_" ++ hd "00000000-0000-4000-8000-000000000000" (uuids w) ++ ".png".

Definition quiet (o : option string) : bool :=
  match o with
  | None => true
  | Some _ => false
  end.

(** Nothing stands in the way of writing the next screenshot: the target is
    not a directory, and either [temp] is a directory and the operating
    system lets the next two calls through (opening the file, writing it),
    or nothing is called [temp] and it lets the next three through (creating
    the directory first). *)
Definition scratch_writable (w : World) : bool :=
  negb (py_in (scratch_path w) (dirs w)) &&
  quiet (hd None (disk w)) && quiet (hd None (tl (disk w))) &&
  (py_in "temp" (dirs w) ||
   negb (is_file "temp" (files w)) && quiet (hd None (tl (tl (disk w))))).

(** A page that is ready and captured at once, in front of a scratch
    directory with the given files and answers. *)
Definition ready_page (fs : list (string * list Byte.byte)) (dk : list (option string)) : World :=
  mkWorld (Some (mkDriver ["tab-1"] "tab-1" (2560, 1440)
                   [answers "https://www.bing.com/";
                    returns (PStr "complete");
                    captures png_magic]
                   []))
          [] [] fs ["3f2b8c1e-6d0a-4c57-9e42-0a1b2c3d4e5f"] dk.

Definition disk_full : World :=
  ready_page [] [None; None; Some "[Errno 28] No space left on device"].

Definition temp_is_a_file : World := ready_page [("temp", [])] [].

(** ** Launching the browser *)

(** What [subprocess.run(['taskkill', ...], timeout=5)] does: it runs, or it
    raises one of the two exceptions [init_driver] ignores, or it raises
    something else. *)
Inductive taskkill_outcome : Type :=
| TaskkillRan
| TaskkillTimeoutExpired
| TaskkillFileNotFound
| TaskkillRaised (e : exn).

(** The machine the service starts on: the outcome of the cleanup command,
    of [GeckoDriverManager().install()], which leaves the directories and
    files of its download cache behind and may raise, and of the
    [webdriver.Firefox] constructor on the options it is given. *)
Record Launch : Type := mkLaunch {
  taskkill : taskkill_outcome;
  geckodriver_dirs : list string;
  geckodriver_files : list (string * list Byte.byte);
  geckodriver_install : option exn;
  firefox : list string -> result WebDriver
}.

Definition firefox_options : list string :=
  ["--headless"; "--no-sandbox"; "--disable-dev-shm-usage"; "--window-size=2560,1440";
   "--font-render-hinting=none"; "--disable-gpu"; "--disable-extensions";
   "--disable-infobars"; "--disable-notifications"; "--disable-popup-blocking"].

(** [driver.set_page_load_timeout] and [driver.set_script_timeout]: one round
    trip each that changes nothing of the modelled state; the command type
    has no entry for them, so the history does not show them. *)
Definition round_trip : D unit :=
  fun d =>
    let r := hd default_reply (oracle d) in
    let d1 := mkDriver (handles d) (current d) (size d) (tl (oracle d)) (history d) in
    match fault r with
    | Some e => (Raise e, d1)
    | None => (Ret tt, d1)
    end.

Definition set_page_load_timeout (seconds : Z) : D unit := round_trip.
Definition set_script_timeout (seconds : Z) : D unit := round_trip.

(** [GeckoDriverManager().install()] *)
Definition install (env : Launch) : M unit :=
  fun w =>
    let w1 := mkWorld (the_driver w) (log w) (geckodriver_dirs env ++ dirs w)%list
                      (geckodriver_files env ++ files w)%list (uuids w) (disk w) in
    match geckodriver_install env with
    | Some e => (Raise e, w1)
    | None => (Ret tt, w1)
    end.

(** [driver = value] on the global. *)
Definition assign_driver (o : option WebDriver) : M unit :=
  fun w => (Ret tt, set_driver o w).

Definition init_driver (env : Launch) : M unit :=
  fun w =>
    match the_driver w with
    | Some _ => (Ret tt, w)
    | None =>
        try_except
          (match taskkill env with
           | TaskkillRaised e => raise e
           | _ => ret tt
           end;;
           install env;;
           launched <- lift (firefox env firefox_options);;
           assign_driver (Some launched);;
           drv (set_page_load_timeout 30);;
           drv (set_script_timeout 30);;
           drv (driver.set_window_size (PInt 2560) (PInt 1440));;
           drv (driver.get "https://www.bing.com/");;
           drv (WebDriverWait_until 10 ready_state_complete);;
           logger INFO "Firefox浏览器初始化成功")
          (fun e =>
             logger ERROR ("初始化Firefox浏览器失败: " ++ str e);;
             (fun w' =>
                match the_driver w' with
                | Some _ =>
                    (try_except (drv driver.quit) (fun _ => ret tt);;
                     assign_driver None) w'
                | None => (Ret tt, w')
                end);;
             raise e) w
    end.

(** The startup half of [lifespan]. *)
Definition lifespan_startup (env : Launch) : M unit :=
  try_except
    (init_driver env;;
     logger INFO "应用启动时自动初始化浏览器成功")
    (fun e => logger ERROR ("应用启动时初始化浏览器失败: " ++ str e)).

(** ** JSON-safe values *)

(** No value anywhere inside that [json.dumps] would refuse. *)
Fixpoint json_safe (v : pyval) : bool :=
  match v with
  | PList l => forallb json_safe l
  | PDict l => forallb (fun '(_, x) => json_safe x) l
  | POther _ => false
  | _ => true
  end.

Definition is_HTTPException (e : exn) : bool :=
  match e with
  | HTTPException _ _ _ => true
  | _ => false
  end.

(** The handlers whose [try] has a catch-all [except Exception] around all
    of its driver calls; [navigate_to_url] also talks to the driver inside an
    [except] clause. *)
Definition catches_all (op : operation) : bool :=
  match op with
  | OpNavigate _ => false
  | _ => true
  end.

(** The driver's current handle names an open tab. *)
Definition current_open (d : WebDriver) : bool := py_in (current d) (handles d).

(** The tab a [close_tab] request is about. *)
Definition close_target (request : TabRequest) (d : WebDriver) : string :=
  if str_truthy (req_handle request) then str_or (req_handle request) "" else current d.

(** A driver that boots with one tab, answers the four configuration
    commands and reports the start page ready at the first poll. *)
Definition fresh_firefox : WebDriver :=
  mkDriver ["tab-1"] "tab-1" (1280, 1024)
    [default_reply; default_reply; default_reply; default_reply;
     returns (PStr "complete")] [].

(** A machine on which the browser starts but never finishes loading. *)
Definition stuck_machine : Launch :=
  mkLaunch TaskkillRan [] [] None
           (fun _ => Ret (mkDriver ["tab-1"] "tab-1" (1280, 1024) [] [])).

Definition healthy_machine : Launch :=
  mkLaunch TaskkillFileNotFound [".wdm"] [(".wdm/geckodriver.exe", [])] None
           (fun _ => Ret fresh_firefox).

(** ** More sample worlds *)

(** The navigation times out and the driver then stops answering. *)
Definition navigation_times_out_then_dies : World :=
  browser ["tab-1"] "tab-1"
    [throws (TimeoutException "Message: Navigation timed out after 30000 ms");
     throws marionette_down].

(** Two tabs and a driver that answers everything. *)
Definition two_quiet_tabs : World := browser ["tab-1"; "tab-2"] "tab-2" [].

(** Two tabs; the driver closes the second and then stops answering. *)
Definition two_tabs_dies_after_close : World :=
  browser ["tab-1"; "tab-2"] "tab-1"
    [default_reply; default_reply; default_reply; default_reply; throws marionette_down].

(** A script of the caller's that closes the first of two tabs and then
    throws. *)
Definition closes_tab_then_throws : reply :=
  mkReply (Some (WebDriverException "Message: Error: done")) "" PNone []
          (Some (["tab-2"], (2560, 1440))).

(** ** Tactics: symbolic execution of handlers *)

(** Unfold the monad and the driver commands, keeping data operations folded. *)
Ltac exec :=
  cbv beta delta [driver.execute_script] in *;
  repeat match goal with
         | |- context [driver.kind_of ?s] =>
             let k := eval vm_compute in (driver.kind_of s) in
             change (driver.kind_of s) with k
         end;
  cbv beta iota zeta delta
    [bind ret raise lift try_except drv logger set_driver call
     driver.get driver.title driver.current_url driver.window_handles
     driver.current_window_handle driver.switch_to_window driver.close
     driver.execute_script driver.script_effect
     driver.get_screenshot_as_png driver.get_window_size
     driver.set_window_size driver.quit restore_size
     set_current set_handles set_size
     the_driver log dirs files uuids disk handles current size oracle history
     fst snd] in *.

(** Split on whether the next reply is a fault. *)
Ltac on_fault :=
  match goal with
  | |- context [match fault ?r with _ => _ end] =>
      let F := fresh "F" in destruct (fault r) eqn:F
  end.

Ltac on_fault_in H :=
  match type of H with
  | context [match fault ?r with _ => _ end] =>
      let F := fresh "F" in destruct (fault r) eqn:F
  end.

Ltac on_value :=
  match goal with
  | |- context [match fault ?r with _ => _ end] =>
      let F := fresh "F" in destruct (fault r) eqn:F
  | |- context [match py_le_zero ?v with _ => _ end] =>
      let L := fresh "L" in destruct (py_le_zero v) as [[|]|] eqn:L
  | |- context [match py_int ?v with _ => _ end] =>
      let I := fresh "I" in destruct (py_int v) eqn:I
  end.

(** [history = events ++ earlier history], up to re-association. *)
Ltac hist_eq :=
  cbn [history];
  repeat (rewrite <- app_assoc || rewrite <- app_comm_cons);
  reflexivity.

Ltac pick_event := (left; reflexivity) + (right; pick_event).

(** ** URL prefixing *)

Lemma format_url_bare (url : string) :
  prefix "http://" url = false -> prefix "https://" url = false ->
  format_url url = "https://" ++ url.
Proof. intros H1 H2; unfold format_url; rewrite H1, H2; reflexivity. Qed.

Lemma format_url_prefixed (url : string) :
  prefix "http://" url = true \/ prefix "https://" url = true ->
  format_url url = url.
Proof.
  intros [H|H]; unfold format_url; rewrite H; simpl; try reflexivity.
  rewrite orb_true_r; reflexivity.
Qed.

Lemma format_url_idempotent (url : string) : format_url (format_url url) = format_url url.
Proof.
  destruct (prefix "http://" url || prefix "https://" url) eqn:E.
  - apply orb_true_iff in E. rewrite (format_url_prefixed url E).
    apply format_url_prefixed; exact E.
  - apply orb_false_iff in E; destruct E as [E1 E2].
    rewrite (format_url_bare url E1 E2).
    apply format_url_prefixed. right.
    unfold prefix; simpl.
    repeat (match goal with |- context [Ascii.ascii_dec ?a ?b] =>
              destruct (Ascii.ascii_dec a b); [|congruence] end).
    destruct url; reflexivity.
Qed.

(** C10: [format_url] looks only for the literal prefixes [http://] and
    [https://]: every other string, a string with another scheme included,
    gets [https://] in front of the whole of it, and a string comes back
    unmodified exactly when it starts with one of the two. *)
Theorem format_url_only_http_schemes :
  (forall url, format_url url =
                 if prefix "http://" url || prefix "https://" url
                 then url else "https://" ++ url) /\
  (forall url, format_url url = url <->
                 prefix "http://" url = true \/ prefix "https://" url = true) /\
  format_url "ftp://host" = "https://ftp://host" /\
  format_url "file:///path" = "https://file:///path" /\
  format_url "HTTP://host" = "https://HTTP://host".
Proof.
  split; [|split; [|repeat split]].
  - intros url; unfold format_url.
    destruct (prefix "http://" url || prefix "https://" url); reflexivity.
  - intros url; split.
    + unfold format_url.
      destruct (prefix "http://" url || prefix "https://" url) eqn:E; simpl.
      * intros _; apply orb_true_iff; exact E.
      * intros H. apply (f_equal String.length) in H.
        simpl in H. lia.
    + apply format_url_prefixed.
Qed.

(** ** The decorator *)

Lemma with_browser_keeps_HTTPException {A} (func : M A) (w w' : World) c d h :
  func w = (Raise (HTTPException c d h), w') ->
  with_browser func w = (Raise (HTTPException c d h), w').
Proof. intros H; unfold with_browser, try_except; rewrite H; reflexivity. Qed.

(** ** Calls without a session *)

(** C4 (amended): without a session every operation other than start and
    status fails and leaves the whole world as it was.  The failure is
    NotRunning, except that switch_tab without a handle and execute_script
    with an empty script are rejected for the missing input before the
    session is looked at; shutting down without a session does nothing and
    succeeds. *)
Theorem no_session_no_effect (op : operation) (w : World)
  (Hnone : the_driver w = None) :
  (exists e, run op w = (Raise e, w) /\
     if input_missing op
     then is_NotRunning e = false /\
          e = match op with OpSwitchTab _ => missing_handle | _ => missing_script end
     else is_NotRunning e = true) /\
  shutdown w = (Ret tt, w).
Proof.
  split.
  - destruct op as [r|r| |r|r|r| ]; simpl;
      unfold navigate_to_url, open_new_tab, list_tabs, switch_tab, close_tab,
             execute_script, take_screenshot;
      rewrite ?Hnone;
      try (eexists; split; [reflexivity|reflexivity]).
    + destruct (str_truthy (req_handle r)); simpl;
        eexists; (split; [reflexivity|]); [reflexivity | split; reflexivity].
    + destruct (req_script r =? "")%string; simpl;
        eexists; (split; [reflexivity|]); [split; reflexivity | reflexivity].
  - unfold shutdown; rewrite Hnone; reflexivity.
Qed.

Lemma no_session_no_effect_witness :
  the_driver no_browser = None /\
  ((exists e, run (OpCloseTab (mkTabRequest (Some "tab-1") None)) no_browser
              = (Raise e, no_browser) /\ is_NotRunning e = true) /\
   shutdown no_browser = (Ret tt, no_browser)).
Proof.
  split; [reflexivity|].
  apply (no_session_no_effect (OpCloseTab (mkTabRequest (Some "tab-1") None)) no_browser).
  reflexivity.
Defined.

(** C4 as stated fails: switch_tab called without a handle and without a
    session is answered with the missing-handle error, not NotRunning. *)
Lemma no_session_not_always_NotRunning :
  ~ (forall (op : operation) (w : World), the_driver w = None ->
       exists e, run op w = (Raise e, w) /\ is_NotRunning e = true).
Proof.
  intros H.
  destruct (H (OpSwitchTab (mkTabRequest None None)) no_browser eq_refl) as (e & He & Hn).
  vm_compute in He. inversion He; subst e. vm_compute in Hn. discriminate.
Qed.

(** ** Tab errors inside the handlers' try blocks *)

(** Whatever the request and whatever the driver answers, [close_tab] on a
    browser with a single tab raises a 500 and keeps that tab open. *)
Lemma close_tab_sole_tab_kept (request : TabRequest) (w : World) (d : WebDriver) (h : string) :
  the_driver w = Some d -> handles d = [h] ->
  exists detail w' d',
    close_tab request w = (Raise (HTTPException 500 detail []), w') /\
    the_driver w' = Some d' /\ handles d' = [h] /\ current d' = current d.
Proof.
  intros Hd Hh. unfold close_tab. rewrite Hd.
  destruct w as [dr lg ds fs us dk]; simpl in Hd; subst dr.
  destruct d as [hs cur sz orc hist]; simpl in Hh; subst hs.
  destruct (str_truthy (req_handle request)); exec.
  - on_fault; [do 3 eexists; repeat split|].
    destruct (py_in _ [h]); simpl; [|do 3 eexists; repeat split].
    on_fault; do 3 eexists; repeat split.
  - on_fault; [do 3 eexists; repeat split|].
    on_fault; [do 3 eexists; repeat split|].
    destruct (py_in _ [h]); simpl; [|do 3 eexists; repeat split].
    on_fault; do 3 eexists; repeat split.
Qed.

(** The handle is not open: the 404 raised in the try block reaches the
    caller as a 500. *)
Lemma switch_tab_unknown_handle (w : World) (d : WebDriver) (h : string) (u : option string) :
  the_driver w = Some d -> (h =? "")%string = false -> py_in h (handles d) = false ->
  fault (hd default_reply (oracle d)) = None ->
  exists w' d',
    switch_tab (mkTabRequest (Some h) u) w
    = (Raise (HTTPException 500 ("切换标签页失败: " ++ str tab_not_found) []), w') /\
    the_driver w' = Some d' /\ handles d' = handles d /\ current d' = current d.
Proof.
  intros Hd Hne Hin Hf. unfold switch_tab. cbn [req_handle str_truthy str_or].
  rewrite Hne; cbn [negb]. rewrite Hd.
  destruct w as [dr lg ds fs us dk]; simpl in Hd; subst dr.
  destruct d as [hs cur sz orc hist]; simpl in Hin, Hf.
  assert (Hs : str_or (Some h) "" = h)
    by (unfold str_or, str_truthy; rewrite Hne; reflexivity).
  exec. rewrite Hf, Hs, Hin. simpl. do 2 eexists; repeat split.
Qed.

(** C1: a handle that is not open, with a session active: the handler raises
    the 404 "tab not found" inside its try block, the handler's own
    [except Exception] catches it, and the caller receives a 500 that wraps
    it.  Evaluated at one tab open and another handle requested. *)
Theorem switch_tab_not_found_is_wrapped :
  let request := mkTabRequest (Some "tab-9") None in
  let w := browser ["tab-1"] "tab-1" [] in
  py_in "tab-9" ["tab-1"] = false /\
  fst (switch_tab request w)
  = Raise (HTTPException 500 "切换标签页失败: 404: 指定的标签页不存在" []) /\
  fst (switch_tab request w) <> Raise tab_not_found.
Proof.
  cbv zeta. split; [reflexivity|].
  destruct (switch_tab_unknown_handle (browser ["tab-1"] "tab-1" []) "tab-9" None
              eq_refl eq_refl eq_refl eq_refl) as (w' & d' & H & _).
  rewrite H. split; [reflexivity | discriminate].
Qed.

(** C2: closing the only tab, with a session active: the handler raises the
    400 "cannot close the last tab" inside its try block, its own
    [except Exception] catches it, and the caller receives a 500 that wraps
    it; the tab stays open.  Evaluated at one tab and no handle given. *)
Theorem close_last_tab_is_wrapped :
  let request := mkTabRequest None None in
  let w := browser ["tab-1"] "tab-1" [] in
  fst (close_tab request w)
  = Raise (HTTPException 500 "关闭标签页失败: 400: 不能关闭最后一个标签页" []) /\
  fst (close_tab request w) <> Raise last_tab_error /\
  option_map handles (the_driver (snd (close_tab request w))) = Some ["tab-1"].
Proof.
  cbv zeta.
  destruct (close_tab_sole_tab_kept (mkTabRequest None None)
              (browser ["tab-1"] "tab-1" []) eq_refl eq_refl) as (dt & w' & d' & H & Hd & Hh & _).
  assert (E : fst (close_tab (mkTabRequest None None) (browser ["tab-1"] "tab-1" []))
              = Raise (HTTPException 500 "关闭标签页失败: 400: 不能关闭最后一个标签页" []))
    by reflexivity.
  rewrite E. split; [reflexivity|]. split; [discriminate|].
  rewrite H; simpl. rewrite Hd; simpl. rewrite Hh. reflexivity.
Qed.

(** ** Status *)

(** C5 (amended): without a session [get_status] returns the stopped status
    and touches nothing.  With a session it asks the driver five things
    (title, url, handles, current handle, handles again); when all five are
    answered it returns them with the tab count, and when one of them throws
    the driver's exception leaves the handler as it is. *)
Theorem get_status_outcome (w : World) :
  match the_driver w with
  | None => get_status w = (Ret StatusStopped, w)
  | Some d =>
      let r := fun n => nth n (oracle d) default_reply in
      exists w',
        ((forall n, (n < 5)%nat -> fault (r n) = None) /\
         get_status w = (Ret (StatusResponse (text (r 0%nat)) (text (r 1%nat)) (handles d)
                                             (current d) (py_len (handles d))), w'))
        \/ (exists n e, (n < 5)%nat /\ fault (r n) = Some e /\
                        get_status w = (Raise e, w'))
  end.
Proof.
  destruct w as [[d|] lg ds fs us]; [|reflexivity].
  cbn [the_driver]. destruct d as [hs cur sz orc hist]. cbv zeta.
  unfold get_status. cbn [the_driver oracle handles current].
  destruct orc as [|r0 [|r1 [|r2 [|r3 [|r4 rest]]]]]; exec; cbn [hd tl nth];
    repeat on_fault; eexists;
    first
      [ left; split;
        [ intros n Hn; do 5 (destruct n as [|n]; [first [assumption | reflexivity]|]); lia
        | reflexivity ]
      | right; exists 0%nat; eexists; split; [lia|]; split; [eassumption | reflexivity]
      | right; exists 1%nat; eexists; split; [lia|]; split; [eassumption | reflexivity]
      | right; exists 2%nat; eexists; split; [lia|]; split; [eassumption | reflexivity]
      | right; exists 3%nat; eexists; split; [lia|]; split; [eassumption | reflexivity]
      | right; exists 4%nat; eexists; split; [lia|]; split; [eassumption | reflexivity]
      | cbn in *; discriminate ].
Qed.

(** C5 as stated fails: with a session whose driver throws on the first
    query, [get_status] raises. *)
Lemma get_status_can_fail :
  ~ (forall w : World, exists resp w', get_status w = (Ret resp, w')).
Proof.
  intros H.
  destruct (H (browser ["tab-1"] "tab-1" [throws marionette_down])) as (resp & w' & E).
  vm_compute in E. discriminate.
Qed.

(** ** Listing tabs *)

(** The enumeration loop switches tabs and reads titles: it opens and closes
    nothing and does not resize. *)
Lemma list_tabs_loop_keeps (hs : list string) (current_handle : string) :
  forall (tabs : list TabInfo) (w : World) (d : WebDriver) r w',
    the_driver w = Some d ->
    list_tabs_loop hs current_handle tabs w = (r, w') ->
    exists d', the_driver w' = Some d' /\ handles d' = handles d /\ size d' = size d.
Proof.
  induction hs as [|h hs IH]; intros tabs w d r w' Hd E.
  - inversion E; subst; eauto.
  - destruct w as [dr lg ds fs us dk]; simpl in Hd; subst dr.
    destruct d as [dh cur sz orc hist].
    cbn [list_tabs_loop] in E. exec.
    on_fault_in E; [inversion E; subst; eauto|].
    destruct (py_in h dh); [|inversion E; subst; eauto].
    on_fault_in E; [inversion E; subst; eauto|].
    on_fault_in E; [inversion E; subst; eauto|].
    eapply IH in E; [|reflexivity]. exact E.
Qed.

(** [list_tabs] opens and closes no tab, and when it succeeds the tab that
    is current afterwards is the one that was current before: the switch
    back is the last statement of the [try] block.  A failure is a 500. *)
Lemma list_tabs_restores_current_on_success (w : World) (d : WebDriver)
  (Hd : the_driver w = Some d) :
  exists r w' d',
    list_tabs w = (r, w') /\ the_driver w' = Some d' /\ handles d' = handles d /\
    match r with
    | Ret _ => current d' = current d
    | Raise e => exists detail, e = HTTPException 500 detail []
    end.
Proof.
  unfold list_tabs. rewrite Hd.
  destruct w as [dr lg ds fs us dk]; simpl in Hd; subst dr.
  destruct d as [dh cur sz orc hist].
  exec.
  on_fault; [do 3 eexists; repeat split; eauto|].
  on_fault; [do 3 eexists; repeat split; eauto|].
  match goal with |- context [list_tabs_loop ?a ?b ?c ?x] =>
    destruct (list_tabs_loop a b c x) as [r1 w1] eqn:E end.
  eapply list_tabs_loop_keeps in E; [|reflexivity].
  destruct E as (d1 & Hd1 & Hh1 & _). cbn [handles] in Hh1.
  destruct w1 as [dr lg1 ds1 fs1 us1 dk1]; simpl in Hd1; subst dr.
  destruct d1 as [dh1 cur1 sz1 orc1 hist1]; simpl in Hh1; subst dh1.
  destruct r1 as [tabs|e]; [|do 3 eexists; repeat split; eauto].
  on_fault; [do 3 eexists; repeat split; eauto|].
  destruct (py_in cur dh); do 3 eexists; repeat split; eauto.
Qed.

Example list_tabs_two_tabs :
  fst (list_tabs two_tabs)
  = Ret (TabListResponse
           [mkTabInfo "tab-1" "Bing" "https://www.bing.com/" false;
            mkTabInfo "tab-2" "Example Domain" "https://example.com/" true] 2) /\
  option_map current (the_driver (snd (list_tabs two_tabs))) = Some "tab-2".
Proof. split; reflexivity. Qed.

Lemma list_tabs_restores_current_on_success_witness :
  the_driver two_tabs = Some (mkDriver ["tab-1"; "tab-2"] "tab-2" (2560, 1440)
                                       (oracle_of two_tabs) []) /\
  exists r w' d',
    list_tabs two_tabs = (r, w') /\ the_driver w' = Some d' /\
    handles d' = ["tab-1"; "tab-2"] /\
    match r with
    | Ret _ => current d' = "tab-2"
    | Raise e => exists detail, e = HTTPException 500 detail []
    end.
Proof.
  split; [reflexivity|].
  apply (list_tabs_restores_current_on_success two_tabs
           (d := mkDriver ["tab-1"; "tab-2"] "tab-2" (2560, 1440) (oracle_of two_tabs) [])).
  reflexivity.
Defined.

(** C7: the enumeration fails partway and the current tab is not put back.
    With two tabs open and the first one current, the driver answers while
    the first tab is read and throws on the title of the second: [list_tabs]
    raises its 500 and the driver is left on the second tab, both tabs still
    open.  The handler had saved the current handle, but its switch back is
    the last statement of the [try] block, which the failure skips, and the
    [except] clause sends no command. *)
Theorem list_tabs_failure_leaves_current_moved :
  current_of two_tabs_second_hangs = Some "tab-1" /\
  fst (list_tabs two_tabs_second_hangs)
  = Raise (HTTPException 500 "获取标签页列表失败: Message: Navigation timed out" []) /\
  current_of (snd (list_tabs two_tabs_second_hangs)) = Some "tab-2" /\
  option_map handles (the_driver (snd (list_tabs two_tabs_second_hangs)))
  = Some ["tab-1"; "tab-2"] /\
  map fst (history_of (snd (list_tabs two_tabs_second_hangs)))
  = [CmdTitle; CmdSwitchToWindow "tab-2";
     CmdCurrentUrl; CmdTitle; CmdSwitchToWindow "tab-1";
     CmdWindowHandles; CmdCurrentWindowHandle].
Proof. repeat split. Qed.

(** So the current tab is not preserved by every call. *)
Lemma list_tabs_failure_moves_current :
  ~ (forall w : World, the_driver w <> None ->
       current_of (snd (list_tabs w)) = current_of w).
Proof.
  intros H.
  assert (E := H two_tabs_second_hangs ltac:(discriminate)).
  vm_compute in E. discriminate E.
Qed.

(** ** Full-page capture and the window size *)

(** C6 (amended): full-page capture leaves the window at the size it had,
    also when the resize or the capture after it throws, unless the restoring
    resize itself throws: then that failed restore is the last thing the
    driver was asked, its error is swallowed and the window keeps the size it
    was given. *)
Theorem full_page_capture_restores_size (w : World) (d : WebDriver)
  (Hd : the_driver w = Some d) :
  exists r w' d',
    take_full_page_screenshot_safely w = (r, w') /\ the_driver w' = Some d' /\
    (size d' = size d \/
     exists rp e rest,
       history d' = (CmdSetWindowSize (fst (size d)) (snd (size d)), rp) :: rest /\
       fault rp = Some e).
Proof.
  unfold take_full_page_screenshot_safely.
  destruct w as [dr lg ds fs us dk]; simpl in Hd; subst dr.
  destruct d as [dh cur [sw sh] orc hist].
  exec. cbn [py_int].
  repeat (on_value; cbn [py_int fst snd]);
    do 3 eexists; (split; [reflexivity|]); (split; [reflexivity|]);
    first [ left; reflexivity
          | right; do 3 eexists; split; [reflexivity | eassumption] ].
Qed.

Example full_page_capture_throws_restore_works :
  let w := tall_page [throws out_of_memory; default_reply] in
  fst (take_full_page_screenshot_safely w) = Ret png_magic /\
  size_of w = Some (2560, 1440) /\
  size_of (snd (take_full_page_screenshot_safely w)) = Some (2560, 1440) /\
  map fst (history_of (snd (take_full_page_screenshot_safely w)))
  = [CmdSetWindowSize 2560 1440; CmdScreenshot; CmdSetWindowSize 1280 4000;
     CmdGetWindowSize;
     CmdExecuteScript "return window.innerHeight";
     CmdExecuteScript "return window.innerWidth";
     CmdExecuteScript "return document.body.scrollHeight";
     CmdExecuteScript "return document.body.scrollWidth";
     CmdScreenshot].
Proof. repeat split. Qed.

Lemma full_page_capture_restores_size_witness :
  let w := tall_page [throws out_of_memory; default_reply] in
  let d := mkDriver ["tab-1"] "tab-1" (2560, 1440) (oracle_of w) [] in
  the_driver w = Some d /\
  exists r w' d',
    take_full_page_screenshot_safely w = (r, w') /\ the_driver w' = Some d' /\
    (size d' = size d \/
     exists rp e rest,
       history d' = (CmdSetWindowSize (fst (size d)) (snd (size d)), rp) :: rest /\
       fault rp = Some e).
Proof.
  cbv zeta. split; [reflexivity|].
  apply (full_page_capture_restores_size
           (tall_page [throws out_of_memory; default_reply])).
  reflexivity.
Defined.

Example full_page_capture_throws_restore_throws :
  let w := tall_page [throws out_of_memory; throws marionette_down] in
  fst (take_full_page_screenshot_safely w) = Ret png_magic /\
  size_of w = Some (2560, 1440) /\
  size_of (snd (take_full_page_screenshot_safely w)) = Some (1280, 4000).
Proof. repeat split. Qed.

(** C6 as stated fails: the resize succeeds, the capture throws, and the
    restoring resize throws as well; the handler swallows that and returns
    the backup image with the window still 1280 x 4000. *)
Lemma full_page_capture_can_leave_window_resized :
  ~ (forall w : World, the_driver w <> None ->
       size_of (snd (take_full_page_screenshot_safely w)) = size_of w).
Proof.
  intros H.
  assert (E := H (tall_page [throws out_of_memory; throws marionette_down])
                 ltac:(discriminate)).
  vm_compute in E. discriminate E.
Qed.

(** ** Waiting never fails the caller *)

Lemma polled_refl (d : WebDriver) : polled d d.
Proof.
  split; auto.
  - exists 0%nat; reflexivity.
  - exists []; split; [reflexivity | constructor].
Qed.

Lemma polled_trans (d1 d2 d3 : WebDriver) : polled d1 d2 -> polled d2 d3 -> polled d1 d3.
Proof.
  intros [h1 c1 s1 (k1 & o1) (e1 & y1 & f1)] [h2 c2 s2 (k2 & o2) (e2 & y2 & f2)].
  split; try congruence.
  - exists (k2 + k1)%nat. rewrite o2, o1. apply skipn_skipn.
  - exists (e2 ++ e1)%list. split.
    + rewrite y2, y1. apply app_assoc.
    + apply Forall_app; split; assumption.
Qed.

Lemma script_polled (s : string) (d : WebDriver) :
  driver.kind_of s = driver.ReadsPage ->
  polled d (snd (driver.execute_script s d)).
Proof.
  intros Hs. unfold driver.execute_script. rewrite Hs. cbn [driver.script_effect].
  destruct (fault (hd default_reply (oracle d))); cbn [snd];
    (split; cbn [handles current size oracle history]; auto;
     [ exists 1%nat; destruct (oracle d); reflexivity
     | eexists [_]; split; [reflexivity | repeat constructor; eexists; reflexivity] ]).
Qed.

Lemma ready_state_complete_polled (d : WebDriver) :
  polled d (snd (ready_state_complete d)).
Proof.
  unfold ready_state_complete.
  pose proof (script_polled "return document.readyState" d eq_refl) as H.
  destruct (driver.execute_script "return document.readyState" d) as [[v|e] d']; exact H.
Qed.

Lemma images_complete_polled (d : WebDriver) : polled d (snd (images_complete d)).
Proof. apply script_polled; reflexivity. Qed.

Lemma until_polled (method : D pyval) :
  (forall d, polled d (snd (method d))) ->
  forall n d, polled d (snd (until n method d)).
Proof.
  intros Hm n; induction n as [|n IH]; intros d; cbn [until].
  - apply polled_refl.
  - pose proof (Hm d) as H. destruct (method d) as [[v|e] d']; cbn [snd] in H.
    + destruct (truthy v); [exact H|]. eapply polled_trans; [exact H | apply IH].
    + destruct e; try exact H. eapply polled_trans; [exact H | apply IH].
Qed.

Lemma waited_intro (d d' : WebDriver) lg lg' ds fs us dk :
  polled d d' ->
  waited (mkWorld (Some d) lg ds fs us dk) (mkWorld (Some d') lg' ds fs us dk).
Proof. intros P; split; try reflexivity. exists d, d'; auto. Qed.

Lemma wait_for_page_load_returns (timeout : Z) (w : World) (d : WebDriver) :
  the_driver w = Some d ->
  exists w', wait_for_page_load timeout w = (Ret tt, w') /\ waited w w'.
Proof.
  intros Hd. destruct w as [dr lg ds fs us dk]; simpl in Hd; subst dr.
  unfold wait_for_page_load, WebDriverWait_until. exec.
  pose proof (until_polled _ ready_state_complete_polled (polls_of timeout) d) as P1.
  destruct (until (polls_of timeout) ready_state_complete d) as [[v1|e1] d1]; cbn [snd] in P1.
  - pose proof (until_polled _ images_complete_polled (polls_of 10) d1) as P2.
    destruct (until (polls_of 10) images_complete d1) as [[v2|e2] d2]; cbn [snd] in P2.
    + eexists; split; [reflexivity|]. apply waited_intro. eapply polled_trans; eassumption.
    + destruct e2; (eexists; split; [reflexivity|]; apply waited_intro;
                    eapply polled_trans; eassumption).
  - destruct e1; (eexists; split; [reflexivity|]; apply waited_intro; assumption).
Qed.

Lemma wait_for_page_load_safely_returns (timeout : Z) (w : World) (d : WebDriver) :
  the_driver w = Some d ->
  exists w', wait_for_page_load_safely timeout w = (Ret tt, w') /\ waited w w'.
Proof.
  intros Hd. destruct w as [dr lg ds fs us dk]; simpl in Hd; subst dr.
  unfold wait_for_page_load_safely, WebDriverWait_until. exec.
  pose proof (until_polled _ ready_state_complete_polled (polls_of timeout) d) as P1.
  destruct (until (polls_of timeout) ready_state_complete d) as [[v1|e1] d1]; cbn [snd] in P1.
  - eexists; split; [reflexivity|]. apply waited_intro; assumption.
  - destruct e1; (eexists; split; [reflexivity|]; apply waited_intro; assumption).
Qed.

(** ** Navigation timeouts *)

Lemma answering_hd (rs : list reply) : answering rs -> fault (hd default_reply rs) = None.
Proof. intros H; destruct H; [reflexivity | assumption]. Qed.

Lemma answering_tl (rs : list reply) : answering rs -> answering (tl rs).
Proof. intros H; destruct H; [constructor | assumption]. Qed.




Example navigate_get_times_out :
  fst (navigate_to_url (mkURLRequest "slow.example") navigation_times_out)
  = Ret (BasicResponse "Slow page" "https://slow.example/") /\
  history_of (snd (navigate_to_url (mkURLRequest "slow.example") navigation_times_out))
  = [(CmdCurrentUrl, answers "https://slow.example/");
     (CmdTitle, answers "Slow page");
     (CmdGet "https://slow.example",
      throws (TimeoutException "Message: Navigation timed out after 30000 ms"))].
Proof. split; reflexivity. Qed.

(** The page never reports ready: all 61 polls are answered with nothing, the
    wait gives up, the handler still reports title and url. *)
Example navigate_page_never_ready :
  fst (navigate_to_url (mkURLRequest "slow.example") (browser ["tab-1"] "tab-1" []))
  = Ret (BasicResponse "" "") /\
  List.length (history_of (snd (navigate_to_url (mkURLRequest "slow.example")
                                  (browser ["tab-1"] "tab-1" [])))) = 64%nat.
Proof. split; vm_compute; reflexivity. Qed.



(** ** The URL that is navigated to *)

Lemma scripts_are_not_get (ev : list (command * reply)) :
  Forall is_script ev -> Forall (fun c => forall u, fst c <> CmdGet u) ev.
Proof.
  intros H. eapply Forall_impl; [|exact H].
  intros c [s Hs] u Hu. rewrite Hs in Hu. discriminate Hu.
Qed.

(** The events a run added in front of its navigation. *)
Ltac before_get l hist :=
  lazymatch l with
  | (?e ++ _)%list => constr:(e)
  | (CmdGet _, _) :: hist => constr:(@nil (command * reply))
  | ?x :: ?l' => let p := before_get l' hist in constr:(x :: p)
  end.

Ltac sent_leaf hist Hng :=
  cbn [snd history_of the_driver history];
  match goal with
  | |- exists ev, ?l = _ /\ _ =>
      let p := before_get l hist in exists p
  end;
  split; [reflexivity|];
  repeat (apply Forall_cons; [intros ?; cbn [fst]; discriminate|]);
  first [apply Forall_nil | exact Hng].

(** Whatever the driver does, the first command [navigate_to_url] sends is
    [driver.get] on the formatted URL, and it sends no other navigation. *)
Lemma navigate_sends_get (request : URLRequest) (w : World) (d : WebDriver) :
  the_driver w = Some d ->
  exists ev,
    history_of (snd (navigate_to_url request w))
    = (ev ++ (CmdGet (format_url (req_url request)), hd default_reply (oracle d))
          :: history d)%list /\
    Forall (fun c => forall u, fst c <> CmdGet u) ev.
Proof.
  intros Hd. unfold navigate_to_url. rewrite Hd.
  destruct w as [dr lg ds fs us dk]; simpl in Hd; subst dr.
  destruct d as [dh cur sz orc hist]. cbn [oracle history].
  assert (Hnil : Forall (fun c : command * reply => forall u, fst c <> CmdGet u) [])
    by constructor.
  exec. on_fault.
  - destruct e; exec; repeat on_fault; sent_leaf hist Hnil.
  - match goal with |- context [wait_for_page_load 30 ?x] =>
      destruct (@wait_for_page_load_returns 30 x _ eq_refl) as (w1 & E1 & W1) end.
    rewrite E1.
    destruct W1 as [(d0 & d1 & H0 & H1 & P) _ _ _ _].
    cbn [the_driver] in H0. inversion H0; subst d0; clear H0.
    destruct P as [_ _ _ _ (polls & Hp & Hs)]. cbn [history] in Hp.
    apply scripts_are_not_get in Hs.
    destruct w1 as [dr1 lg1 ds1 fs1 us1 dk1]. cbn [the_driver] in H1. subst dr1.
    destruct d1 as [dh1 cur1 sz1 orc1 hist1]. cbn [history] in Hp. subst hist1.
    clear E1. exec.
    repeat (first [ on_fault
                  | match goal with
                    | |- context [match ?e with HTTPException _ _ _ => _ | _ => _ end] =>
                        is_var e; destruct e
                    end ]; exec);
      sent_leaf hist Hs.
Qed.

(** C9: a URL that starts with neither [http://] nor [https://] is navigated
    to with [https://] prepended: the first command the handler sends, and
    its only navigation, is [driver.get] on the prefixed string, so that
    navigating to the bare string is the same computation as navigating to
    the prefixed one; a URL that already starts with one of the two is
    passed to [driver.get] unchanged. *)
Theorem navigate_bare_host_prefixed (url : string) (w : World)
  (Hhttp : prefix "http://" url = false) (Hhttps : prefix "https://" url = false) :
  format_url url = "https://" ++ url /\
  format_url ("https://" ++ url) = "https://" ++ url /\
  navigate_to_url (mkURLRequest url) w = navigate_to_url (mkURLRequest ("https://" ++ url)) w /\
  (forall d, the_driver w = Some d ->
     exists ev,
       history_of (snd (navigate_to_url (mkURLRequest url) w))
       = (ev ++ (CmdGet ("https://" ++ url), hd default_reply (oracle d)) :: history d)%list /\
       Forall (fun c => forall u, fst c <> CmdGet u) ev) /\
  (forall u, prefix "http://" u = true \/ prefix "https://" u = true ->
     format_url u = u /\
     forall d, the_driver w = Some d ->
       exists ev,
         history_of (snd (navigate_to_url (mkURLRequest u) w))
         = (ev ++ (CmdGet u, hd default_reply (oracle d)) :: history d)%list /\
         Forall (fun c => forall u', fst c <> CmdGet u') ev).
Proof.
  pose proof (format_url_bare url Hhttp Hhttps) as Hb.
  assert (Hp : format_url ("https://" ++ url) = "https://" ++ url).
  { rewrite <- Hb. apply format_url_idempotent. }
  split; [exact Hb|]. split; [exact Hp|]. split; [|split].
  - unfold navigate_to_url; cbn [req_url]. rewrite Hp, Hb. reflexivity.
  - intros d Hd.
    destruct (navigate_sends_get (mkURLRequest url) w Hd) as (ev & Hev & Hng).
    cbn [req_url] in Hev. rewrite Hb in Hev. exists ev. split; assumption.
  - intros u Hu. pose proof (format_url_prefixed u Hu) as Hf. split; [exact Hf|].
    intros d Hd.
    destruct (navigate_sends_get (mkURLRequest u) w Hd) as (ev & Hev & Hng).
    cbn [req_url] in Hev. rewrite Hf in Hev. exists ev. split; assumption.
Qed.

Lemma navigate_bare_host_prefixed_witness :
  let w := navigation_times_out in
  (prefix "http://" "slow.example" = false /\ prefix "https://" "slow.example" = false) /\
  format_url "slow.example" = "https://slow.example" /\
  navigate_to_url (mkURLRequest "slow.example") w
  = navigate_to_url (mkURLRequest "https://slow.example") w /\
  exists ev,
    history_of (snd (navigate_to_url (mkURLRequest "slow.example") w))
    = (ev ++ [(CmdGet "https://slow.example", hd default_reply (oracle_of w))])%list /\
    Forall (fun c => forall u, fst c <> CmdGet u) ev.
Proof.
  cbv zeta. split; [split; reflexivity|].
  destruct (navigate_bare_host_prefixed "slow.example" navigation_times_out
              eq_refl eq_refl) as (H1 & _ & H3 & H4 & _).
  split; [exact H1|]. split; [exact H3|].
  exact (H4 _ eq_refl).
Defined.

Example navigate_prefixed_url_unchanged :
  map fst (history_of (snd (navigate_to_url (mkURLRequest "http://intranet/")
                              navigation_times_out)))
  = [CmdCurrentUrl; CmdTitle; CmdGet "http://intranet/"].
Proof. reflexivity. Qed.

(** ** Screenshots *)

(** Full-page capture returns an image some capture of this call produced;
    it raises only after the backup capture and the last-resort capture have
    both thrown.  It writes no file. *)
Lemma full_page_capture_outcome (w : World) (d : WebDriver) :
  the_driver w = Some d ->
  exists r w' d' ev,
    take_full_page_screenshot_safely w = (r, w') /\
    the_driver w' = Some d' /\ history d' = (ev ++ history d)%list /\
    dirs w' = dirs w /\ files w' = files w /\ uuids w' = uuids w /\ disk w' = disk w /\
    match r with
    | Ret image =>
        exists rc, In (CmdScreenshot, rc) ev /\ fault rc = None /\ png rc = image
    | Raise e =>
        e = capture_failed /\
        exists r1 r2, ev = [(CmdScreenshot, r2); (CmdScreenshot, r1)] /\
                      fault r1 <> None /\ fault r2 <> None
    end.
Proof.
  intros Hd. unfold take_full_page_screenshot_safely.
  destruct w as [dr lg ds fs us dk]; simpl in Hd; subst dr.
  destruct d as [dh cur [sw sh] orc hist].
  exec. cbn [py_int].
  repeat (on_value; cbn [py_int fst snd]);
    do 3 eexists;
    match goal with
    | |- exists ev, (_, mkWorld (Some (mkDriver _ _ _ _ ?l)) _ _ _ _ _) = _ /\ _ =>
        let rec pre l :=
          lazymatch l with
          | hist => constr:(@nil (command * reply))
          | ?x :: ?l' => let p := pre l' in constr:(x :: p)
          end in
        let p := pre l in exists p
    end;
    (split; [reflexivity|]); (split; [reflexivity|]); (split; [reflexivity|]);
    (split; [reflexivity|]); (split; [reflexivity|]); (split; [reflexivity|]);
    (split; [reflexivity|]);
    first
      [ eexists; split; [cbn [In]; pick_event | split; [eassumption | reflexivity]]
      | split; [reflexivity|]; do 2 eexists; split; [reflexivity|]; split; congruence ].
Qed.

Lemma read_file_written (p : string) (data : list Byte.byte) fs :
  read_file p ((p, data) :: fs) = Some data.
Proof. cbn [read_file]. rewrite String.eqb_refl. reflexivity. Qed.

Lemma read_file_other (p q : string) (data : list Byte.byte) fs :
  p <> q -> read_file p ((q, data) :: fs) = read_file p fs.
Proof.
  intros N. cbn [read_file]. destruct (String.eqb_spec p q); [contradiction | reflexivity].
Qed.

Lemma temp_holds_scratch (u : string) (ds : list string) :
  py_in "temp" ds = true ->
  in_directory ("temp" ++ "/screenshot_" ++ u ++ ".png") ds = true.
Proof.
  intros H. unfold in_directory. apply orb_true_iff; right.
  induction ds as [|y ys IH]; [discriminate H|].
  cbn [py_in] in H. cbn [existsb].
  destruct (String.eqb_spec "temp" y) as [<-|N].
  - apply orb_true_iff; left. vm_compute. reflexivity.
  - apply orb_true_iff; right. apply IH. exact H.
Qed.

Lemma scratch_is_not_temp (u : string) :
  ("temp" ++ "/screenshot_" ++ u ++ ".png" =? "temp") = false.
Proof. vm_compute. reflexivity. Qed.

Ltac stored :=
  do 2 eexists; (split; [reflexivity|]); (split; [reflexivity|]); (split; [reflexivity|]);
  cbn [dirs files];
  (split; [first [left; reflexivity | right; reflexivity]|]);
  (split; [intros ? ?; rewrite ?read_file_other by assumption; reflexivity|]);
  first
    [ split; [reflexivity|]; split; [apply read_file_written|];
      first [left; split; reflexivity | right; split; reflexivity]
    | split; [eexists; reflexivity|];
      split; [rewrite ?andb_false_r; reflexivity|];
      first [left; reflexivity | right; apply read_file_written] ].

Ltac fs_norm Hu :=
  cbv beta iota zeta delta
    [bind ret path_exists makedirs uuid4 write_file open_wb file_write
     syscall add_dir put_file the_driver log dirs files uuids disk];
  cbn [negb andb orb quiet py_in];
  rewrite <- ?Hu; rewrite ?scratch_is_not_temp;
  repeat match goal with
         | H : py_in _ _ = _ |- _ => rewrite H
         | H : is_file _ _ = _ |- _ => rewrite H
         end;
  cbn [orb negb andb].

(** Storing the capture: the last statements of the [try] block of
    [take_screenshot].  They touch no file but the target, and they fail
    only when the scratch directory is not writable. *)
Lemma scratch_store (screenshot : list Byte.byte) (w : World) :
  exists r w',
    (present <- path_exists "temp";;
     (if present : bool then ret tt else makedirs "temp");;
     u <- uuid4;;
     write_file ("temp" ++ "/screenshot_" ++ u ++ ".png") screenshot;;
     ret (FileResponse ("temp" ++ "/screenshot_" ++ u ++ ".png")
                       "image/png" "screenshot.png")) w = (r, w') /\
    the_driver w' = the_driver w /\ log w' = log w /\
    (dirs w' = dirs w \/ dirs w' = "temp" :: dirs w) /\
    (forall p, p <> scratch_path w -> read_file p (files w') = read_file p (files w)) /\
    match r with
    | Ret resp =>
        resp = FileResponse (scratch_path w) "image/png" "screenshot.png" /\
        read_file (scratch_path w) (files w') = Some screenshot /\
        (path_exists "temp" w = (Ret true, w) /\ dirs w' = dirs w \/
         path_exists "temp" w = (Ret false, w) /\ dirs w' = "temp" :: dirs w)
    | Raise e =>
        (exists msg, e = OSError msg) /\ scratch_writable w = false /\
        (read_file (scratch_path w) (files w') = read_file (scratch_path w) (files w) \/
         read_file (scratch_path w) (files w') = Some [])
    end.
Proof.
  destruct w as [dr lg ds fs us dk].
  unfold scratch_writable, scratch_path. cbn [the_driver log dirs files uuids disk].
  remember (hd "00000000-0000-4000-8000-000000000000" us) as u eqn:Hu.
  fs_norm Hu.
  destruct (py_in "temp" ds) eqn:Ht; fs_norm Hu.
  - destruct (py_in ("temp" ++ "/screenshot_" ++ u ++ ".png") ds) eqn:Hp; fs_norm Hu;
      [stored|].
    rewrite (temp_holds_scratch u ds Ht). fs_norm Hu.
    destruct (hd None dk) as [m1|]; fs_norm Hu; [stored|].
    destruct (hd None (tl dk)) as [m2|]; fs_norm Hu; stored.
  - destruct (is_file "temp" fs) eqn:Hf; fs_norm Hu.
    + destruct (py_in ("temp" ++ "/screenshot_" ++ u ++ ".png") ds) eqn:Hp; fs_norm Hu;
        [stored|].
      destruct (in_directory ("temp" ++ "/screenshot_" ++ u ++ ".png") ds); fs_norm Hu;
        [|stored].
      destruct (hd None dk) as [m1|]; fs_norm Hu; [stored|].
      destruct (hd None (tl dk)) as [m2|]; fs_norm Hu; stored.
    + destruct (hd None dk) as [m1|]; fs_norm Hu; [stored|].
      destruct (py_in ("temp" ++ "/screenshot_" ++ u ++ ".png") ds) eqn:Hp; fs_norm Hu;
        [stored|].
      rewrite (temp_holds_scratch u ("temp" :: ds) eq_refl). fs_norm Hu.
      destruct (hd None (tl dk)) as [m2|]; fs_norm Hu; [stored|].
      destruct (hd None (tl (tl dk))) as [m3|]; fs_norm Hu; stored.
Qed.

(** C3 (amended): with a session active, [take_screenshot] first probes the
    driver with [current_url].  If the probe throws, the operation fails with
    "browser connection failed".  Otherwise it obtains a capture whatever the
    geometry scripts and the resizes do, unless three captures in a row throw
    (the plain one, the backup one and the last-resort one), in which case it
    fails with "capture failed".  A capture obtained is written to the
    scratch directory and returned as a PNG file holding exactly the bytes
    the driver produced, so non-empty when the driver's captures are; only
    when the scratch directory is not writable does the operation fail at
    this point, with "screenshot failed" and the error of the operating
    system. *)
Theorem take_screenshot_outcome (w : World) (d : WebDriver)
  (Hd : the_driver w = Some d) :
  exists r w' d' ev,
    take_screenshot w = (r, w') /\
    the_driver w' = Some d' /\ history d' = (ev ++ history d)%list /\
    match r with
    | Ret resp =>
        exists image rc,
          resp = FileResponse (scratch_path w) "image/png" "screenshot.png" /\
          read_file (scratch_path w) (files w') = Some image /\
          In (CmdScreenshot, rc) ev /\ fault rc = None /\ png rc = image /\
          ((forall r, In (CmdScreenshot, r) ev -> fault r = None -> png r <> []) ->
           image <> [])
    | Raise e =>
        (e = connection_failed /\
         exists rp, ev = [(CmdCurrentUrl, rp)] /\ fault rp <> None) \/
        (e = capture_failed /\
         exists r1 r2 r3 rest,
           ev = (CmdScreenshot, r3) :: (CmdScreenshot, r2) :: (CmdScreenshot, r1) :: rest /\
           fault r1 <> None /\ fault r2 <> None /\ fault r3 <> None) \/
        (exists msg rc,
           e = HTTPException 500 ("截图失败: " ++ msg) [] /\
           scratch_writable w = false /\
           In (CmdScreenshot, rc) ev /\ fault rc = None)
    end.
Proof.
  unfold take_screenshot. rewrite Hd.
  destruct w as [dr lg ds fs us dk]; simpl in Hd; subst dr.
  destruct d as [dh cur sz orc hist].
  exec.
  on_fault.
  { do 3 eexists. exists [(CmdCurrentUrl, hd default_reply orc)].
    repeat (split; [reflexivity|]). left. split; [reflexivity|].
    eexists; split; [reflexivity | congruence]. }
  match goal with |- context [wait_for_page_load_safely 15 ?x] =>
    destruct (@wait_for_page_load_safely_returns 15 x _ eq_refl) as (w1 & E1 & W1) end.
  rewrite E1.
  destruct W1 as [(d0 & d1 & H0 & H1 & P) Hds Hfs Hus Hdk].
  cbn [the_driver] in H0. inversion H0; subst d0; clear H0.
  destruct P as [_ _ _ _ (ev1 & Hh & _)]. cbn [history] in Hh.
  destruct w1 as [dr1 lg1 ds1 fs1 us1 dk1].
  cbn [the_driver dirs files uuids disk] in H1, Hds, Hfs, Hus, Hdk.
  subst dr1 ds1 fs1 us1 dk1.
  destruct d1 as [dh1 cur1 sz1 orc1 hist1]. cbn [history] in Hh. subst hist1.
  clear E1. exec.
  set (probe := (CmdCurrentUrl, hd default_reply orc)) in *.
  on_fault.
  - match goal with |- context [take_full_page_screenshot_safely ?x] =>
      destruct (@full_page_capture_outcome x _ eq_refl)
        as (r2 & w2 & d2 & ev2 & E2 & Hd2 & Hh2 & Hds2 & Hfs2 & Hus2 & Hdk2 & Hr) end.
    rewrite E2.
    destruct w2 as [dr2 lg2 ds2 fs2 us2 dk2].
    cbn [the_driver dirs files uuids disk history log] in Hd2, Hds2, Hfs2, Hus2, Hdk2, Hh2.
    subst dr2 ds2 fs2 us2 dk2.
    destruct d2 as [dh2 cur2 sz2 orc2 hist2]. cbn [history] in Hh2. subst hist2.
    destruct r2 as [image|e2].
    + destruct Hr as (rc & Hin & Hfc & Hpng).
      match goal with |- context [path_exists "temp" ?W] =>
        destruct (scratch_store image W) as (rs & ws & S & Sd & _ & _ & _ & Sr) end.
      exec. rewrite S. clear S.
      destruct ws as [drs lgs dss fss uss dks]. cbn [the_driver files] in Sd, Sr. subst drs.
      destruct rs as [resp|es].
      * destruct Sr as (-> & Hread & _).
        do 3 eexists.
        exists (ev2 ++ (CmdScreenshot, hd default_reply orc1) :: ev1 ++ [probe])%list.
        split; [reflexivity|]. split; [reflexivity|]. split; [hist_eq|].
        exists image, rc.
        split; [reflexivity|]. split; [exact Hread|].
        split; [apply in_or_app; left; exact Hin|]. split; [exact Hfc|].
        split; [exact Hpng|].
        intros Hne. rewrite <- Hpng. apply Hne; [apply in_or_app; left; exact Hin | exact Hfc].
      * destruct Sr as ((msg & ->) & Hw & _). exec.
        do 3 eexists.
        exists (ev2 ++ (CmdScreenshot, hd default_reply orc1) :: ev1 ++ [probe])%list.
        split; [reflexivity|]. split; [reflexivity|]. split; [hist_eq|].
        right; right. exists msg, rc.
        split; [reflexivity|]. split; [exact Hw|].
        split; [apply in_or_app; left; exact Hin | exact Hfc].
    + destruct Hr as (He & r1 & r2 & Hev & Hf1 & Hf2). subst e2 ev2.
      do 3 eexists.
      exists ([(CmdScreenshot, r2); (CmdScreenshot, r1)] ++
              (CmdScreenshot, hd default_reply orc1) :: ev1 ++ [probe])%list.
      split; [reflexivity|]. split; [reflexivity|].
      split; [hist_eq|].
      right; left. split; [reflexivity|].
      do 4 eexists. split; [reflexivity|]. repeat split; congruence.
  - match goal with |- context [path_exists "temp" ?W] =>
      destruct (scratch_store (png (hd default_reply orc1)) W)
        as (rs & ws & S & Sd & _ & _ & _ & Sr) end.
    exec. rewrite S. clear S.
    destruct ws as [drs lgs dss fss uss dks]. cbn [the_driver files] in Sd, Sr. subst drs.
    destruct rs as [resp|es].
    + destruct Sr as (-> & Hread & _).
      do 3 eexists.
      exists ((CmdScreenshot, hd default_reply orc1) :: ev1 ++ [probe])%list.
      split; [reflexivity|]. split; [reflexivity|]. split; [hist_eq|].
      exists (png (hd default_reply orc1)), (hd default_reply orc1).
      split; [reflexivity|]. split; [exact Hread|].
      split; [left; reflexivity|]. split; [assumption|]. split; [reflexivity|].
      intros Hne. apply Hne; [left; reflexivity | assumption].
    + destruct Sr as ((msg & ->) & Hw & _). exec.
      do 3 eexists.
      exists ((CmdScreenshot, hd default_reply orc1) :: ev1 ++ [probe])%list.
      split; [reflexivity|]. split; [reflexivity|]. split; [hist_eq|].
      right; right. exists msg, (hd default_reply orc1).
      split; [reflexivity|]. split; [exact Hw|].
      split; [left; reflexivity | assumption].
Qed.

Example take_screenshot_geometry_throws :
  let w' := snd (take_screenshot geometry_throws) in
  fst (take_screenshot geometry_throws)
  = Ret (FileResponse "temp/screenshot_3f2b8c1e-6d0a-4c57-9e42-0a1b2c3d4e5f.png"
                      "image/png" "screenshot.png") /\
  read_file "temp/screenshot_3f2b8c1e-6d0a-4c57-9e42-0a1b2c3d4e5f.png" (files w')
  = Some png_magic /\
  dirs w' = ["temp"] /\
  map fst (history_of w')
  = [CmdExecuteScript "return document.body.scrollWidth"; CmdScreenshot; CmdScreenshot;
     CmdExecuteScript "return document.readyState"; CmdCurrentUrl].
Proof. repeat split. Qed.

(** The directory is made and the file opened, then the disk is full: the
    capture is lost and an empty file stays behind. *)
Example take_screenshot_disk_full :
  let w' := snd (take_screenshot disk_full) in
  fst (take_screenshot disk_full)
  = Raise (HTTPException 500 "截图失败: [Errno 28] No space left on device" []) /\
  scratch_writable disk_full = false /\
  dirs w' = ["temp"] /\
  read_file "temp/screenshot_3f2b8c1e-6d0a-4c57-9e42-0a1b2c3d4e5f.png" (files w') = Some [].
Proof. repeat split. Qed.

(** Something called [temp] exists and is a regular file: no directory is
    made, and the file cannot be opened inside it. *)
Example take_screenshot_temp_is_a_file :
  let w' := snd (take_screenshot temp_is_a_file) in
  fst (take_screenshot temp_is_a_file)
  = Raise (HTTPException 500
             ("截图失败: [Errno 20] Not a directory: " ++
              "'temp/screenshot_3f2b8c1e-6d0a-4c57-9e42-0a1b2c3d4e5f.png'") []) /\
  scratch_writable temp_is_a_file = false /\
  dirs w' = [] /\ files w' = files temp_is_a_file.
Proof. repeat split. Qed.

Lemma take_screenshot_outcome_witness :
  let w := geometry_throws in
  let d := mkDriver ["tab-1"] "tab-1" (2560, 1440) (oracle_of w) [] in
  the_driver w = Some d /\
  exists r w' d' ev,
    take_screenshot w = (r, w') /\
    the_driver w' = Some d' /\ history d' = (ev ++ history d)%list /\
    match r with
    | Ret resp =>
        exists image rc,
          resp = FileResponse (scratch_path w) "image/png" "screenshot.png" /\
          read_file (scratch_path w) (files w') = Some image /\
          In (CmdScreenshot, rc) ev /\ fault rc = None /\ png rc = image /\
          ((forall r, In (CmdScreenshot, r) ev -> fault r = None -> png r <> []) ->
           image <> [])
    | Raise e =>
        (e = connection_failed /\
         exists rp, ev = [(CmdCurrentUrl, rp)] /\ fault rp <> None) \/
        (e = capture_failed /\
         exists r1 r2 r3 rest,
           ev = (CmdScreenshot, r3) :: (CmdScreenshot, r2) :: (CmdScreenshot, r1) :: rest /\
           fault r1 <> None /\ fault r2 <> None /\ fault r3 <> None) \/
        (exists msg rc,
           e = HTTPException 500 ("截图失败: " ++ msg) [] /\
           scratch_writable w = false /\
           In (CmdScreenshot, rc) ev /\ fault rc = None)
    end.
Proof.
  cbv zeta. split; [reflexivity|].
  apply (take_screenshot_outcome geometry_throws). reflexivity.
Defined.

Example take_screenshot_probe_throws :
  fst (take_screenshot probe_throws) = Raise connection_failed /\
  map fst (history_of (snd (take_screenshot probe_throws))) = [CmdCurrentUrl].
Proof. repeat split. Qed.

(** C3 as stated fails: the connectivity probe throws, the operation fails,
    and no capture was attempted, let alone thrown. *)
Lemma take_screenshot_fails_without_capture :
  ~ (forall w : World, the_driver w <> None ->
       forall e, fst (take_screenshot w) = Raise e ->
         exists rc, In (CmdScreenshot, rc) (history_of (snd (take_screenshot w))) /\
                    fault rc <> None).
Proof.
  intros H.
  destruct (H probe_throws ltac:(discriminate) connection_failed eq_refl) as (rc & Hin & _).
  vm_compute in Hin. destruct Hin as [Hin|[]]. discriminate Hin.
Qed.

(** * Further properties of the handlers *)

(** ** What [format_url] returns *)

Lemma prefix_https_prepended (url : string) : prefix "https://" ("https://" ++ url) = true.
Proof.
  unfold prefix; simpl.
  repeat (match goal with |- context [Ascii.ascii_dec ?a ?b] =>
            destruct (Ascii.ascii_dec a b); [|congruence] end).
  destruct url; reflexivity.
Qed.

(** X1: whatever the input, the string [format_url] returns starts with
    [http://] or [https://], and formatting it again changes nothing. *)
Theorem format_url_has_scheme (url : string) :
  prefix "http://" (format_url url) || prefix "https://" (format_url url) = true /\
  format_url (format_url url) = format_url url.
Proof.
  split; [|apply format_url_idempotent].
  destruct (prefix "http://" url || prefix "https://" url) eqn:E.
  - pose proof E as E'. apply orb_true_iff in E'.
    rewrite (format_url_prefixed url E'). exact E.
  - apply orb_false_iff in E; destruct E as [E1 E2].
    rewrite (format_url_bare url E1 E2), prefix_https_prepended.
    apply orb_true_r.
Qed.

(** ** Script results *)

Section pyval_induction.
Variable P : pyval -> Prop.
Hypothesis HNone : P PNone.
Hypothesis HBool : forall b, P (PBool b).
Hypothesis HInt : forall z, P (PInt z).
Hypothesis HFloat : forall q, P (PFloat q).
Hypothesis HStr : forall s, P (PStr s).
Hypothesis HList : forall l, Forall P l -> P (PList l).
Hypothesis HDict : forall l, Forall (fun kv => P (snd kv)) l -> P (PDict l).
Hypothesis HOther : forall r, P (POther r).

(** Induction that reaches the elements of lists and dictionaries. *)
Fixpoint pyval_nested_ind (v : pyval) : P v :=
  match v with
  | PNone => HNone
  | PBool b => HBool b
  | PInt z => HInt z
  | PFloat q => HFloat q
  | PStr s => HStr s
  | PList l =>
      HList ((fix elements (l : list pyval) : Forall P l :=
                match l with
                | [] => Forall_nil _
                | x :: xs => Forall_cons x (pyval_nested_ind x) (elements xs)
                end) l)
  | PDict l =>
      HDict ((fix entries (l : list (string * pyval)) : Forall (fun kv => P (snd kv)) l :=
                match l with
                | [] => Forall_nil _
                | (k, x) :: xs =>
                    Forall_cons (P := fun kv => P (snd kv)) (k, x)
                                (pyval_nested_ind x) (entries xs)
                end) l)
  | POther r => HOther r
  end.
End pyval_induction.

Lemma json_roundtrip_safe (v : pyval) : json_safe (json_roundtrip v) = true.
Proof.
  induction v using pyval_nested_ind; try reflexivity.
  - cbn [json_roundtrip json_safe]. induction H as [|x xs Hx _ IH]; [reflexivity|].
    cbn [map forallb]. rewrite Hx, IH. reflexivity.
  - cbn [json_roundtrip json_safe]. induction H as [|[k x] xs Hx _ IH]; [reflexivity|].
    cbn [map forallb]. cbn [snd] in Hx. rewrite Hx, IH. reflexivity.
Qed.

Lemma json_roundtrip_keeps_safe (v : pyval) : json_safe v = true -> json_roundtrip v = v.
Proof.
  induction v using pyval_nested_ind; try reflexivity; try discriminate.
  - cbn [json_roundtrip json_safe]. intros Hs. f_equal.
    induction H as [|x xs Hx _ IH]; [reflexivity|].
    cbn [forallb] in Hs. apply andb_true_iff in Hs. destruct Hs as [H1 H2].
    cbn [map]. rewrite (Hx H1), (IH H2). reflexivity.
  - cbn [json_roundtrip json_safe]. intros Hs. f_equal.
    induction H as [|[k x] xs Hx _ IH]; [reflexivity|].
    cbn [forallb] in Hs. apply andb_true_iff in Hs. destruct Hs as [H1 H2].
    cbn [map]. cbn [snd] in Hx. rewrite (Hx H1), (IH H2). reflexivity.
Qed.

Lemma serialize_result_safe (v : pyval) : json_safe (serialize_result v) = true.
Proof.
  destruct v; try reflexivity; unfold serialize_result; apply json_roundtrip_safe.
Qed.

Lemma serialize_result_keeps_safe (v : pyval) :
  json_safe v = true -> serialize_result v = v.
Proof.
  destruct v; try reflexivity; try discriminate;
    unfold serialize_result; apply json_roundtrip_keeps_safe.
Qed.

(** X2: the value [execute_script] puts in its response never contains
    anything JSON cannot carry, at any depth; a result that was already clean
    is returned as it is; and serializing twice is serializing once. *)
Theorem serialize_result_is_json (v : pyval) :
  json_safe (serialize_result v) = true /\
  (json_safe v = true -> serialize_result v = v) /\
  serialize_result (serialize_result v) = serialize_result v.
Proof.
  split; [apply serialize_result_safe|]. split; [apply serialize_result_keeps_safe|].
  apply serialize_result_keeps_safe, serialize_result_safe.
Qed.

Example serialize_nested_element :
  serialize_result
    (PDict [("rows", PList [PInt 1; POther "<WebElement 7f3a>"; PDict [("el", POther "<WebElement 11c0>")]])])
  = PDict [("rows", PList [PInt 1; PStr "<WebElement 7f3a>"; PDict [("el", PStr "<WebElement 11c0>")]])].
Proof. reflexivity. Qed.

(** ** Which exceptions leave a handler *)

Lemma try_except_only {A} (body : M A) (handler : exn -> M A) (P : exn -> Prop) :
  (forall e w e' w', handler e w = (Raise e', w') -> P e') ->
  forall w e w', try_except body handler w = (Raise e, w') -> P e.
Proof.
  intros Hh w e w'. unfold try_except.
  destruct (body w) as [[a|e0] w0]; [discriminate|]. apply Hh.
Qed.

Ltac only_http H :=
  first
    [ solve [inversion H; reflexivity]
    | revert H;
      refine (@try_except_only _ _ _ (fun x => is_HTTPException x = true) _ _ _ _);
      let e0 := fresh "e0" in
      let Hh := fresh "Hh" in
      intros e0 ? ? ? Hh; try destruct e0;
      cbv [bind logger raise] in Hh; inversion Hh; reflexivity ].

(** X3: whatever the driver does, an exception that leaves [open_new_tab],
    [list_tabs], [switch_tab], [close_tab], [execute_script] or
    [take_screenshot] is an [HTTPException]: no driver exception reaches the
    caller of these handlers as it is. *)
Theorem handlers_raise_only_HTTPException (op : operation) (w w' : World) (e : exn)
  (Hop : catches_all op = true) (Hraise : run op w = (Raise e, w')) :
  is_HTTPException e = true.
Proof.
  destruct op as [r|r| |r|r|r| ]; try discriminate Hop; cbn [run] in Hraise.
  - unfold open_new_tab in Hraise. destruct (the_driver w); only_http Hraise.
  - unfold list_tabs in Hraise. destruct (the_driver w); only_http Hraise.
  - unfold switch_tab in Hraise.
    destruct (negb (str_truthy (req_handle r))); [only_http Hraise|].
    destruct (the_driver w); only_http Hraise.
  - unfold close_tab in Hraise. destruct (the_driver w); only_http Hraise.
  - unfold execute_script in Hraise.
    destruct (req_script r =? "")%string; [only_http Hraise|].
    destruct (the_driver w); only_http Hraise.
  - unfold take_screenshot in Hraise. destruct (the_driver w); only_http Hraise.
Qed.

Lemma handlers_raise_only_HTTPException_witness :
  let e := HTTPException 500 "获取标签页列表失败: Message: Navigation timed out" [] in
  (catches_all OpListTabs = true /\
   run OpListTabs two_tabs_second_hangs = (Raise e, snd (run OpListTabs two_tabs_second_hangs))) /\
  is_HTTPException e = true.
Proof.
  cbv zeta. split; [split; reflexivity|].
  apply (handlers_raise_only_HTTPException OpListTabs two_tabs_second_hangs
           (w' := snd (run OpListTabs two_tabs_second_hangs)));
    reflexivity.
Defined.

(** X4: [navigate_to_url] is the exception.  When [driver.get] times out,
    the handler reads title and url inside its [except TimeoutException]
    clause, where nothing catches: if the driver throws there, that exception
    leaves the handler as it is, whatever its class. *)
Theorem navigate_timeout_then_driver_throws (request : URLRequest) (w : World) (d : WebDriver)
  (m : string) (e : exn)
  (Hd : the_driver w = Some d)
  (Hget : fault (hd default_reply (oracle d)) = Some (TimeoutException m))
  (Hthrow : fault (hd default_reply (tl (oracle d))) = Some e \/
            (fault (hd default_reply (tl (oracle d))) = None /\
             fault (hd default_reply (tl (tl (oracle d)))) = Some e)) :
  fst (navigate_to_url request w) = Raise e.
Proof.
  unfold navigate_to_url. rewrite Hd.
  destruct w as [dr lg ds fs us dk]; simpl in Hd; subst dr.
  destruct d as [dh cur sz orc hist]; cbn [oracle] in Hget, Hthrow.
  exec. rewrite Hget.
  destruct Hthrow as [H1 | [H1 H2]]; rewrite H1; [reflexivity|].
  rewrite H2. reflexivity.
Qed.

Lemma navigate_timeout_then_driver_throws_witness :
  let w := navigation_times_out_then_dies in
  let d := mkDriver ["tab-1"] "tab-1" (2560, 1440) (oracle_of w) [] in
  (the_driver w = Some d /\
   fault (hd default_reply (oracle d))
   = Some (TimeoutException "Message: Navigation timed out after 30000 ms") /\
   fault (hd default_reply (tl (oracle d))) = Some marionette_down) /\
  fst (navigate_to_url (mkURLRequest "slow.example") w) = Raise marionette_down /\
  is_HTTPException marionette_down = false.
Proof.
  cbv zeta. split; [repeat split|]. split; [|reflexivity].
  apply (navigate_timeout_then_driver_throws (mkURLRequest "slow.example")
           navigation_times_out_then_dies
           (d := mkDriver ["tab-1"] "tab-1" (2560, 1440)
                          (oracle_of navigation_times_out_then_dies) [])
           (m := "Message: Navigation timed out after 30000 ms")).
  - reflexivity.
  - reflexivity.
  - left; reflexivity.
Defined.

(** ** What the handlers leave alone *)


Ltac frame_leaf := do 3 eexists; (split; [reflexivity|]); repeat split; reflexivity.




(** X6: [get_status] only reads.  With a session active, whether it returns
    or raises, tabs, current tab and window size are untouched, nothing is
    logged and nothing is written. *)
Theorem get_status_reads_only (w : World) (d : WebDriver)
  (Hd : the_driver w = Some d) :
  exists r w' d',
    get_status w = (r, w') /\ the_driver w' = Some d' /\
    handles d' = handles d /\ current d' = current d /\ size d' = size d /\
    log w' = log w /\ dirs w' = dirs w /\ files w' = files w /\ uuids w' = uuids w.
Proof.
  unfold get_status. rewrite Hd.
  destruct w as [dr lg ds fs us dk]; simpl in Hd; subst dr.
  destruct d as [dh cur sz orc hist].
  exec. repeat on_fault; frame_leaf.
Qed.

Lemma get_status_reads_only_witness :
  let w := probe_throws in
  let d := mkDriver ["tab-1"] "tab-1" (2560, 1440) (oracle_of w) [] in
  the_driver w = Some d /\
  exists r w' d',
    get_status w = (r, w') /\ the_driver w' = Some d' /\
    handles d' = handles d /\ current d' = current d /\ size d' = size d /\
    log w' = log w /\ dirs w' = dirs w /\ files w' = files w /\ uuids w' = uuids w.
Proof.
  cbv zeta. split; [reflexivity|].
  apply (get_status_reads_only probe_throws). reflexivity.
Defined.

(** ** Switching, closing and opening tabs when the driver answers *)

(** Rewrite the faults of a driver that answers everything. *)
Ltac answer_all Ha :=
  repeat match goal with
         | |- context [fault (hd default_reply ?l)] =>
             rewrite (@answering_hd l) by (repeat apply answering_tl; exact Ha)
         end.

Lemma py_in_In (x : string) (xs : list string) : py_in x xs = true <-> In x xs.
Proof.
  induction xs as [|y ys IH]; cbn [py_in In]; [split; [discriminate | tauto]|].
  rewrite orb_true_iff, IH, String.eqb_eq. split; intros [H|H]; auto.
Qed.

Lemma py_in_first (x : string) (xs : list string) : py_first xs = Ret x -> py_in x xs = true.
Proof.
  destruct xs as [|y ys]; [discriminate|]. intros H; inversion H; subst.
  cbn [py_in]. rewrite String.eqb_refl. reflexivity.
Qed.



(** X7: switching to a tab that is open, with a driver that answers: the
    handler returns the title and url the driver reports after the switch,
    the requested tab is the current one, and no tab was opened or closed. *)
Theorem switch_tab_selects_the_tab (w : World) (d : WebDriver) (h : string) (u : option string)
  (Hd : the_driver w = Some d)
  (Hne : (h =? "")%string = false)
  (Hopen : py_in h (handles d) = true)
  (Ha : answering (oracle d)) :
  exists rt ru rs rw w' d',
    switch_tab (mkTabRequest (Some h) u) w = (Ret (BasicResponse (text rt) (text ru)), w') /\
    the_driver w' = Some d' /\
    history d' = (CmdCurrentUrl, ru) :: (CmdTitle, rt) :: (CmdSwitchToWindow h, rs)
                 :: (CmdWindowHandles, rw) :: history d /\
    current d' = h /\ handles d' = handles d /\ size d' = size d.
Proof.
  unfold switch_tab. cbn [req_handle str_truthy]. rewrite Hne; cbn [negb]. rewrite Hd.
  assert (Hs : str_or (Some h) "" = h)
    by (unfold str_or, str_truthy; rewrite Hne; reflexivity).
  destruct w as [dr lg ds fs us dk]; simpl in Hd; subst dr.
  destruct d as [dh cur sz orc hist]; cbn [oracle handles] in Ha, Hopen.
  exec. answer_all Ha. rewrite Hs, Hopen. cbn [negb].
  answer_all Ha. rewrite Hopen. answer_all Ha.
  do 6 eexists. split; [reflexivity|]. repeat split.
Qed.

Lemma switch_tab_selects_the_tab_witness :
  let d := mkDriver ["tab-1"; "tab-2"] "tab-2" (2560, 1440) [] [] in
  let w0 := browser ["tab-1"; "tab-2"] "tab-2" [] in
  (the_driver w0 = Some d /\ ("tab-1" =? "")%string = false /\
   py_in "tab-1" (handles d) = true /\ answering (oracle d)) /\
  exists rt ru rs rw w' d',
    switch_tab (mkTabRequest (Some "tab-1") None) w0
    = (Ret (BasicResponse (text rt) (text ru)), w') /\
    the_driver w' = Some d' /\
    history d' = (CmdCurrentUrl, ru) :: (CmdTitle, rt) :: (CmdSwitchToWindow "tab-1", rs)
                 :: (CmdWindowHandles, rw) :: history d /\
    current d' = "tab-1" /\ handles d' = handles d /\ size d' = size d.
Proof.
  cbv zeta. split; [repeat split; constructor|].
  apply (switch_tab_selects_the_tab (browser ["tab-1"; "tab-2"] "tab-2" [])
           (d := mkDriver ["tab-1"; "tab-2"] "tab-2" (2560, 1440) [] []) "tab-1" None).
  - reflexivity.
  - reflexivity.
  - reflexivity.
  - constructor.
Defined.

Lemma filter_keeps_all (t : string) (xs : list string) :
  ~ In t xs -> filter (fun h => negb (h =? t)%string) xs = xs.
Proof.
  induction xs as [|y ys IH]; intros Hn; [reflexivity|].
  cbn [filter]. destruct (y =? t)%string eqn:E.
  - apply String.eqb_eq in E. exfalso; apply Hn; left; exact E.
  - cbn [negb]. rewrite IH; [reflexivity|]. intros H; apply Hn; right; exact H.
Qed.

Lemma filter_drops_one (t : string) (xs : list string) :
  NoDup xs -> In t xs ->
  List.length (filter (fun h => negb (h =? t)%string) xs) = pred (List.length xs).
Proof.
  induction xs as [|y ys IH]; intros Hnd Hin; [destruct Hin|].
  inversion Hnd as [|? ? Hny Hnd']; subst.
  cbn [filter]. destruct (y =? t)%string eqn:E; cbn [negb].
  - apply String.eqb_eq in E; subst y. rewrite filter_keeps_all by exact Hny. reflexivity.
  - destruct Hin as [Hin|Hin]; [subst y; rewrite String.eqb_refl in E; discriminate|].
    cbn [List.length]. rewrite (IH Hnd' Hin). destruct ys; [destruct Hin | reflexivity].
Qed.

Lemma py_in_filter_other (x t : string) (xs : list string) :
  py_in x (filter (fun h => negb (h =? t)%string) xs) = py_in x xs && negb (x =? t)%string.
Proof.
  induction xs as [|y ys IH]; [reflexivity|].
  cbn [filter py_in]. destruct (y =? t)%string eqn:E; cbn [negb py_in]; rewrite IH.
  - apply String.eqb_eq in E; subst y.
    destruct (x =? t)%string; cbn [negb orb]; [rewrite andb_false_r|rewrite andb_true_r]; reflexivity.
  - destruct (x =? y)%string eqn:Exy; cbn [orb]; [|reflexivity].
    apply String.eqb_eq in Exy; subst y. rewrite E. reflexivity.
Qed.

(** X8: closing a tab that is open when at least two distinct tabs are open
    and the driver answers: exactly that tab goes, the count returned is one
    less than before, and the current tab afterwards is the first of the
    remaining tabs. *)
Theorem close_tab_closes_the_tab (request : TabRequest) (w : World) (d : WebDriver)
  (Hd : the_driver w = Some d)
  (Hnodup : NoDup (handles d))
  (Hopen : py_in (close_target request d) (handles d) = true)
  (Hmore : (2 <= List.length (handles d))%nat)
  (Ha : answering (oracle d)) :
  exists w' d',
    close_tab request w = (Ret (RemainingTabsResponse (py_len (handles d) - 1)), w') /\
    the_driver w' = Some d' /\
    handles d' = filter (fun h => negb (h =? close_target request d)%string) (handles d) /\
    py_in (close_target request d) (handles d') = false /\
    py_first (handles d') = Ret (current d') /\
    size d' = size d.
Proof.
  unfold close_tab. rewrite Hd.
  destruct w as [dr lg ds fs us dk]; simpl in Hd; subst dr.
  destruct d as [dh cur sz orc hist].
  unfold close_target in *. cbn [handles current oracle size] in *.
  assert (Hlen1 : (py_len dh =? 1)%Z = false) by (apply Z.eqb_neq; unfold py_len; lia).
  destruct (str_truthy (req_handle request)) eqn:Ht;
    match type of Hopen with py_in ?t _ = true => set (target := t) in * end;
    (assert (Hflen : List.length (filter (fun h => negb (h =? target)%string) dh)
                     = pred (List.length dh))
       by (apply filter_drops_one; [exact Hnodup | apply py_in_In; exact Hopen]));
    (destruct (py_first (filter (fun h => negb (h =? target)%string) dh)) as [first|e] eqn:Hfirst;
     [| destruct (filter (fun h => negb (h =? target)%string) dh);
        [cbn [List.length] in Hflen; lia | discriminate Hfirst]]);
    pose proof (@py_in_first _ _ Hfirst) as Hfin;
    (assert (Hpl : py_len (filter (fun h => negb (h =? target)%string) dh) = py_len dh - 1)
       by (unfold py_len; rewrite Hflen; lia));
    exec; answer_all Ha; rewrite Hopen; cbn [negb];
    answer_all Ha; rewrite Hlen1; answer_all Ha; rewrite Hopen; answer_all Ha;
    rewrite Hfirst; answer_all Ha; rewrite Hfin; answer_all Ha; rewrite Hpl;
    (do 2 eexists; split; [reflexivity|]; split; [reflexivity|]; split; [reflexivity|];
     split; [rewrite py_in_filter_other, String.eqb_refl; apply andb_false_r|];
     split; [exact Hfirst | reflexivity]).
Qed.

Lemma two_tabs_distinct : NoDup ["tab-1"; "tab-2"].
Proof.
  constructor; [intros [H|[]]; discriminate H|].
  constructor; [intros []|constructor].
Qed.

Example close_current_of_two :
  fst (close_tab (mkTabRequest None None) two_quiet_tabs) = Ret (RemainingTabsResponse 1) /\
  option_map handles (the_driver (snd (close_tab (mkTabRequest None None) two_quiet_tabs)))
  = Some ["tab-1"] /\
  current_of (snd (close_tab (mkTabRequest None None) two_quiet_tabs)) = Some "tab-1".
Proof. repeat split. Qed.

Lemma close_tab_closes_the_tab_witness :
  let request := mkTabRequest None None in
  let d := mkDriver ["tab-1"; "tab-2"] "tab-2" (2560, 1440) [] [] in
  (the_driver two_quiet_tabs = Some d /\ NoDup (handles d) /\
   py_in (close_target request d) (handles d) = true /\
   (2 <= List.length (handles d))%nat /\ answering (oracle d)) /\
  exists w' d',
    close_tab request two_quiet_tabs
    = (Ret (RemainingTabsResponse (py_len (handles d) - 1)), w') /\
    the_driver w' = Some d' /\
    handles d' = filter (fun h => negb (h =? close_target request d)%string) (handles d) /\
    py_in (close_target request d) (handles d') = false /\
    py_first (handles d') = Ret (current d') /\
    size d' = size d.
Proof.
  cbv zeta.
  assert (H : the_driver two_quiet_tabs
              = Some (mkDriver ["tab-1"; "tab-2"] "tab-2" (2560, 1440) [] []) /\
              NoDup ["tab-1"; "tab-2"] /\
              py_in "tab-2" ["tab-1"; "tab-2"] = true /\
              (2 <= 2)%nat /\ answering [])
    by (split; [reflexivity|]; split; [exact two_tabs_distinct|];
        split; [reflexivity|]; split; [lia | constructor]).
  split; [exact H|].
  destruct H as (H1 & H2 & H3 & H4 & H5).
  exact (close_tab_closes_the_tab (mkTabRequest None None) two_quiet_tabs H1 H2 H3 H4 H5).
Defined.

(** X9: an error from [close_tab] does not mean that nothing was closed.
    When the driver answers up to and including [driver.close()] and throws
    on the command after it, the handler raises a 500, the tab is gone, and
    the driver's current handle still names the closed tab. *)
Theorem close_tab_error_after_closing (w : World) (d : WebDriver) (h : string)
  (u : option string) (r0 r1 r2 r3 r4 : reply) (rest : list reply) (e : exn)
  (Hd : the_driver w = Some d)
  (Hne : (h =? "")%string = false)
  (Hopen : py_in h (handles d) = true)
  (Hmore : (2 <= List.length (handles d))%nat)
  (Horc : oracle d = r0 :: r1 :: r2 :: r3 :: r4 :: rest)
  (Hans : answering [r0; r1; r2; r3])
  (Hthrow : fault r4 = Some e) :
  exists w' d',
    close_tab (mkTabRequest (Some h) u) w
    = (Raise (HTTPException 500 ("关闭标签页失败: " ++ str e) []), w') /\
    the_driver w' = Some d' /\
    py_in h (handles d') = false /\ current d' = h /\
    forall x, (x =? h)%string = false -> py_in x (handles d') = py_in x (handles d).
Proof.
  unfold close_tab. rewrite Hd.
  destruct w as [dr lg ds fs us dk]; simpl in Hd; subst dr.
  destruct d as [dh cur sz orc hist]. cbn [handles oracle] in *. subst orc.
  assert (Hlen1 : (py_len dh =? 1)%Z = false) by (apply Z.eqb_neq; unfold py_len; lia).
  assert (Hs : str_or (Some h) "" = h)
    by (unfold str_or, str_truthy; rewrite Hne; reflexivity).
  assert (Ht : str_truthy (Some h) = true) by (unfold str_truthy; rewrite Hne; reflexivity).
  inversion Hans as [|? ? F0 Hans1]; subst.
  inversion Hans1 as [|? ? F1 Hans2]; subst.
  inversion Hans2 as [|? ? F2 Hans3]; subst.
  inversion Hans3 as [|? ? F3 _]; subst.
  cbn [req_handle]. rewrite Ht, Hs.
  exec. cbn [hd tl]. rewrite F0, Hopen. cbn [negb hd tl]. rewrite F1, Hlen1.
  cbn [hd tl]. rewrite F2, Hopen. cbn [hd tl]. rewrite F3. cbn [hd tl]. rewrite Hthrow.
  do 2 eexists. split; [reflexivity|]. split; [reflexivity|].
  cbn [handles current].
  split; [rewrite py_in_filter_other, String.eqb_refl; apply andb_false_r|].
  split; [reflexivity|].
  intros x Hx. rewrite py_in_filter_other, Hx. apply andb_true_r.
Qed.

Lemma close_tab_error_after_closing_witness :
  let d := mkDriver ["tab-1"; "tab-2"] "tab-1" (2560, 1440)
                    (oracle_of two_tabs_dies_after_close) [] in
  (the_driver two_tabs_dies_after_close = Some d /\
   ("tab-2" =? "")%string = false /\
   py_in "tab-2" (handles d) = true /\
   (2 <= List.length (handles d))%nat /\
   oracle d = [default_reply; default_reply; default_reply; default_reply;
               throws marionette_down] /\
   answering [default_reply; default_reply; default_reply; default_reply] /\
   fault (throws marionette_down) = Some marionette_down) /\
  exists w' d',
    close_tab (mkTabRequest (Some "tab-2") None) two_tabs_dies_after_close
    = (Raise (HTTPException 500 ("关闭标签页失败: " ++ str marionette_down) []), w') /\
    the_driver w' = Some d' /\
    py_in "tab-2" (handles d') = false /\ current d' = "tab-2" /\
    forall x, (x =? "tab-2")%string = false -> py_in x (handles d') = py_in x (handles d).
Proof.
  cbv zeta.
  assert (Hans : answering [default_reply; default_reply; default_reply; default_reply])
    by (repeat constructor).
  split; [repeat split; try exact Hans; cbn; lia|].
  apply (@close_tab_error_after_closing two_tabs_dies_after_close
           (mkDriver ["tab-1"; "tab-2"] "tab-1" (2560, 1440)
                     (oracle_of two_tabs_dies_after_close) [])
           "tab-2" None default_reply default_reply default_reply default_reply
           (throws marionette_down) [] marionette_down);
    try reflexivity; try exact Hans.
Defined.



Example open_tab_with_url :
  let w := browser ["tab-1"] "tab-1" [answers "tab-2"] in
  fst (open_new_tab (mkTabRequest None (Some "example.com")) w)
  = Ret (TabOperationResponse "https://example.com" "" "tab-2") /\
  option_map handles (the_driver (snd (open_new_tab (mkTabRequest None (Some "example.com")) w)))
  = Some ["tab-1"; "tab-2"].
Proof. split; vm_compute; reflexivity. Qed.


(** X11: a failed [open_new_tab] can leave a tab behind.  When the browser
    opens the window and the driver throws on the next command, the handler
    raises a 500, the new tab stays open and the current tab is the old
    one. *)
Theorem open_new_tab_error_leaves_tab (request : TabRequest) (w : World) (d : WebDriver)
  (e : exn)
  (Hd : the_driver w = Some d)
  (Hopened : fault (hd default_reply (oracle d)) = None)
  (Hthrow : fault (hd default_reply (tl (oracle d))) = Some e) :
  exists w' d',
    open_new_tab request w
    = (Raise (HTTPException 500 ("打开新标签页失败: " ++ str e) []), w') /\
    the_driver w' = Some d' /\
    handles d' = (handles d ++ [text (hd default_reply (oracle d))])%list /\
    current d' = current d.
Proof.
  unfold open_new_tab. rewrite Hd.
  destruct w as [dr lg ds fs us dk]; simpl in Hd; subst dr.
  destruct d as [dh cur sz orc hist]. cbn [oracle handles current] in *.
  exec. rewrite Hopened, Hthrow.
  do 2 eexists. repeat split.
Qed.

Lemma open_new_tab_error_leaves_tab_witness :
  let w := browser ["tab-1"] "tab-1" [answers "tab-2"; throws marionette_down] in
  let d := mkDriver ["tab-1"] "tab-1" (2560, 1440)
                    [answers "tab-2"; throws marionette_down] [] in
  (the_driver w = Some d /\
   fault (hd default_reply (oracle d)) = None /\
   fault (hd default_reply (tl (oracle d))) = Some marionette_down) /\
  exists w' d',
    open_new_tab (mkTabRequest None None) w
    = (Raise (HTTPException 500 ("打开新标签页失败: " ++ str marionette_down) []), w') /\
    the_driver w' = Some d' /\
    handles d' = (handles d ++ [text (hd default_reply (oracle d))])%list /\
    current d' = current d.
Proof.
  cbv zeta. split; [repeat split|].
  apply (open_new_tab_error_leaves_tab (mkTabRequest None None)
           (browser ["tab-1"] "tab-1" [answers "tab-2"; throws marionette_down])
           (d := mkDriver ["tab-1"] "tab-1" (2560, 1440)
                          [answers "tab-2"; throws marionette_down] []));
    reflexivity.
Defined.

(** ** What [list_tabs] returns *)

Lemma list_tabs_loop_collects (cur0 : string) (hs : list string) :
  forall (tabs : list TabInfo) (w : World) (d : WebDriver),
    the_driver w = Some d -> answering (oracle d) ->
    (forall h, In h hs -> py_in h (handles d) = true) ->
    exists tabs' w' d',
      list_tabs_loop hs cur0 tabs w = (Ret tabs', w') /\ the_driver w' = Some d' /\
      handles d' = handles d /\ answering (oracle d') /\
      map tab_handle tabs' = (map tab_handle tabs ++ hs)%list /\
      map is_current tabs'
      = (map is_current tabs ++ map (fun h => (h =? cur0)%string) hs)%list.
Proof.
  induction hs as [|h hs IH]; intros tabs w d Hd Ha Hin.
  - exists tabs, w, d. cbn [list_tabs_loop map]. rewrite !app_nil_r. repeat split; auto.
  - destruct w as [dr lg ds fs us dk]; simpl in Hd; subst dr.
    destruct d as [dh cur sz orc hist]. cbn [oracle handles] in *.
    assert (Hh : py_in h dh = true) by (apply Hin; left; reflexivity).
    cbn [list_tabs_loop]. exec. answer_all Ha. rewrite Hh. answer_all Ha.
    match goal with |- context [list_tabs_loop hs cur0 ?t ?x] =>
      destruct (IH t x (mkDriver dh h sz (tl (tl (tl orc)))
                          ((CmdCurrentUrl, hd default_reply (tl (tl orc)))
                           :: (CmdTitle, hd default_reply (tl orc))
                           :: (CmdSwitchToWindow h, hd default_reply orc) :: hist))
                  eq_refl (answering_tl (answering_tl (answering_tl Ha)))
                  (fun y Hy => Hin y (or_intror Hy)))
        as (tabs' & w' & d' & E & Hd' & Hh' & Ha' & Hm & Hc) end.
    exists tabs', w', d'. split; [exact E|]. split; [exact Hd'|].
    split; [exact Hh'|]. split; [exact Ha'|].
    rewrite Hm, Hc, !map_app. cbn [map tab_handle is_current app].
    rewrite <- !app_assoc. split; reflexivity.
Qed.

(** X12: with a driver that answers and a current tab that is open,
    [list_tabs] returns one entry per open tab, in the order of the window
    handles, marks as current exactly the entries whose handle is the
    current handle, counts the open tabs, and leaves the current tab where it
    was. *)
Theorem list_tabs_lists_every_tab (w : World) (d : WebDriver)
  (Hd : the_driver w = Some d)
  (Hcur : py_in (current d) (handles d) = true)
  (Ha : answering (oracle d)) :
  exists tabs w' d',
    list_tabs w = (Ret (TabListResponse tabs (py_len (handles d))), w') /\
    the_driver w' = Some d' /\
    map tab_handle tabs = handles d /\
    map is_current tabs = map (fun h => (h =? current d)%string) (handles d) /\
    current d' = current d /\ handles d' = handles d.
Proof.
  unfold list_tabs. rewrite Hd.
  destruct w as [dr lg ds fs us dk]; simpl in Hd; subst dr.
  destruct d as [dh cur sz orc hist]. cbn [oracle handles current] in *.
  exec. answer_all Ha.
  match goal with |- context [list_tabs_loop dh cur ?t ?x] =>
    destruct (@list_tabs_loop_collects cur dh t x
                (mkDriver dh cur sz (tl (tl orc))
                   ((CmdWindowHandles, hd default_reply (tl orc))
                    :: (CmdCurrentWindowHandle, hd default_reply orc) :: hist))
                eq_refl (answering_tl (answering_tl Ha))
                (fun h Hh => proj2 (py_in_In h dh) Hh))
      as (tabs & w' & d' & E & Hd' & Hh' & Ha' & Hm & Hc) end.
  rewrite E. cbn [map app] in Hm, Hc.
  destruct w' as [dr1 lg1 ds1 fs1 us1 dk1]. cbn [the_driver] in Hd'. subst dr1.
  destruct d' as [dh1 cur1 sz1 orc1 hist1]. cbn [handles oracle] in Hh', Ha'. subst dh1.
  exec. answer_all Ha'. rewrite Hcur.
  assert (Hlen : py_len tabs = py_len dh).
  { unfold py_len. rewrite <- Hm, length_map. reflexivity. }
  rewrite Hlen.
  do 3 eexists. split; [reflexivity|]. repeat split; assumption.
Qed.

Lemma list_tabs_lists_every_tab_witness :
  let d := mkDriver ["tab-1"; "tab-2"] "tab-2" (2560, 1440) [] [] in
  (the_driver two_quiet_tabs = Some d /\ py_in (current d) (handles d) = true /\
   answering (oracle d)) /\
  exists tabs w' d',
    list_tabs two_quiet_tabs = (Ret (TabListResponse tabs (py_len (handles d))), w') /\
    the_driver w' = Some d' /\
    map tab_handle tabs = handles d /\
    map is_current tabs = map (fun h => (h =? current d)%string) (handles d) /\
    current d' = current d /\ handles d' = handles d.
Proof.
  cbv zeta.
  assert (Ha : answering []) by constructor.
  split; [repeat split; exact Ha|].
  apply (list_tabs_lists_every_tab two_quiet_tabs
           (d := mkDriver ["tab-1"; "tab-2"] "tab-2" (2560, 1440) [] []));
    [reflexivity | reflexivity | exact Ha].
Defined.

(** ** Running a script *)

(** X13: [execute_script] with a session and a non-empty script sends the
    script once.  If the driver answers, the response carries the serialized
    result, which JSON can carry; if the driver throws, the handler raises a
    500 with the JSON content-type header.  In both cases the handle the
    driver holds as current is what it was, while the open tabs and the
    window size are what the script left behind. *)
Theorem execute_script_outcome (request : ScriptRequest) (w : World) (d : WebDriver)
  (Hd : the_driver w = Some d)
  (Hscript : (req_script request =? "")%string = false) :
  let r0 := hd default_reply (oracle d) in
  let left := driver.script_effect (driver.kind_of (req_script request)) r0 d in
  exists r w' d',
    execute_script request w = (r, w') /\ the_driver w' = Some d' /\
    history d' = (CmdExecuteScript (req_script request), r0) :: history d /\
    oracle d' = tl (oracle d) /\
    current d' = current d /\ handles d' = handles left /\ size d' = size left /\
    match fault r0 with
    | None =>
        r = Ret (ScriptResponse (serialize_result (value r0))) /\
        json_safe (serialize_result (value r0)) = true
    | Some e =>
        r = Raise (HTTPException 500 ("执行JavaScript代码失败: " ++ str e) json_headers)
    end.
Proof.
  cbv zeta. unfold execute_script. rewrite Hscript, Hd.
  destruct w as [dr lg ds fs us dk]; simpl in Hd; subst dr.
  destruct d as [dh cur sz orc hist].
  cbv beta iota zeta delta
    [bind ret raise try_except drv logger set_driver driver.execute_script
     the_driver log dirs files uuids disk handles current size oracle history].
  destruct (fault (hd default_reply orc)) eqn:F;
    (do 3 eexists; split; [reflexivity|]; split; [reflexivity|];
     destruct (driver.kind_of (req_script request)); cbn [driver.script_effect];
     rewrite ?F; try destruct (after (hd default_reply orc)) as [[hs sz']|];
     repeat split; apply serialize_result_safe).
Qed.

Lemma execute_script_outcome_witness :
  let request := mkScriptRequest "window.close(); throw new Error('done')" in
  let w := browser ["tab-1"; "tab-2"] "tab-1" [closes_tab_then_throws] in
  let d := mkDriver ["tab-1"; "tab-2"] "tab-1" (2560, 1440) [closes_tab_then_throws] [] in
  (the_driver w = Some d /\ (req_script request =? "")%string = false) /\
  exists r w' d',
    execute_script request w = (r, w') /\ the_driver w' = Some d' /\
    history d' = [(CmdExecuteScript (req_script request), closes_tab_then_throws)] /\
    oracle d' = [] /\
    current d' = "tab-1" /\ handles d' = ["tab-2"] /\ size d' = (2560, 1440) /\
    r = Raise (HTTPException 500 "执行JavaScript代码失败: Message: Error: done" json_headers).
Proof.
  cbv zeta. split; [split; reflexivity|].
  apply (execute_script_outcome
           (mkScriptRequest "window.close(); throw new Error('done')")
           (browser ["tab-1"; "tab-2"] "tab-1" [closes_tab_then_throws])
           (d := mkDriver ["tab-1"; "tab-2"] "tab-1" (2560, 1440)
                          [closes_tab_then_throws] []));
    reflexivity.
Defined.

Example execute_script_element :
  fst (execute_script (mkScriptRequest "return document.querySelector('h1')")
         (browser ["tab-1"] "tab-1" [returns (POther "<WebElement 7f3a>")]))
  = Ret (ScriptResponse (PStr "<WebElement 7f3a>")).
Proof. reflexivity. Qed.

(** ** Waiting is bounded *)

Lemma until_calls (method : D pyval) :
  (forall d, List.length (history (snd (method d))) = S (List.length (history d))) ->
  forall n d,
    (List.length (history (snd (until n method d))) <= List.length (history d) + n)%nat.
Proof.
  intros Hm n; induction n as [|n IH]; intros d; cbn [until].
  - cbn [snd]. lia.
  - pose proof (Hm d) as H. destruct (method d) as [[v|e] d']; cbn [snd] in H.
    + destruct (truthy v); [cbn [snd]; lia|]. specialize (IH d'). lia.
    + destruct e; cbn [snd]; try lia; specialize (IH d'); lia.
Qed.

Lemma ready_state_complete_one_call (d : WebDriver) :
  List.length (history (snd (ready_state_complete d))) = S (List.length (history d)).
Proof.
  unfold ready_state_complete, driver.execute_script, call.
  destruct (fault (hd default_reply (oracle d))); reflexivity.
Qed.

Lemma images_complete_one_call (d : WebDriver) :
  List.length (history (snd (images_complete d))) = S (List.length (history d)).
Proof.
  unfold images_complete, driver.execute_script, call.
  destruct (fault (hd default_reply (oracle d))); reflexivity.
Qed.

(** X14: the two waits never raise and never hang on the driver: whatever
    the page and the driver do, [wait_for_page_load] returns after at most
    one poll per half second of its two timeouts and
    [wait_for_page_load_safely] after at most one per half second of its
    one, and tabs, current tab, window size and files are untouched. *)
Theorem waits_are_bounded (timeout : Z) (w : World) (d : WebDriver)
  (Hd : the_driver w = Some d) :
  (exists w' d',
     wait_for_page_load timeout w = (Ret tt, w') /\ the_driver w' = Some d' /\
     handles d' = handles d /\ current d' = current d /\ size d' = size d /\
     files w' = files w /\
     (List.length (history d')
      <= List.length (history d) + polls_of timeout + polls_of 10)%nat) /\
  (exists w' d',
     wait_for_page_load_safely timeout w = (Ret tt, w') /\ the_driver w' = Some d' /\
     handles d' = handles d /\ current d' = current d /\ size d' = size d /\
     files w' = files w /\
     (List.length (history d') <= List.length (history d) + polls_of timeout)%nat).
Proof.
  destruct w as [dr lg ds fs us dk]; simpl in Hd; subst dr.
  pose proof (until_polled _ ready_state_complete_polled (polls_of timeout) d) as P1.
  pose proof (until_calls _ ready_state_complete_one_call (polls_of timeout) d) as C1.
  split.
  - unfold wait_for_page_load, WebDriverWait_until.
    cbv beta iota zeta delta [bind ret try_except drv logger set_driver the_driver log dirs files uuids].
    destruct (until (polls_of timeout) ready_state_complete d) as [[v1|e1] d1];
      cbn [snd] in P1, C1.
    + pose proof (until_polled _ images_complete_polled (polls_of 10) d1) as P2.
      pose proof (until_calls _ images_complete_one_call (polls_of 10) d1) as C2.
      destruct P1 as [h1 c1 s1 _ _].
      destruct (until (polls_of 10) images_complete d1) as [[v2|e2] d2];
        cbn [snd] in P2, C2; destruct P2 as [h2 c2 s2 _ _];
        try destruct e2;
        (do 2 eexists; split; [reflexivity|]; split; [reflexivity|];
         repeat split; try congruence; lia).
    + destruct P1 as [h1 c1 s1 _ _].
      destruct e1;
        (do 2 eexists; split; [reflexivity|]; split; [reflexivity|];
         repeat split; try congruence; lia).
  - unfold wait_for_page_load_safely, WebDriverWait_until.
    cbv beta iota zeta delta [bind ret try_except drv logger set_driver the_driver log dirs files uuids].
    destruct P1 as [h1 c1 s1 _ _].
    destruct (until (polls_of timeout) ready_state_complete d) as [[v1|e1] d1];
      cbn [snd] in *; try destruct e1;
      (do 2 eexists; split; [reflexivity|]; split; [reflexivity|];
       repeat split; try congruence; lia).
Qed.

Lemma waits_are_bounded_witness :
  let w := browser ["tab-1"] "tab-1" [] in
  let d := mkDriver ["tab-1"] "tab-1" (2560, 1440) [] [] in
  the_driver w = Some d /\
  ((exists w' d',
      wait_for_page_load 30 w = (Ret tt, w') /\ the_driver w' = Some d' /\
      handles d' = handles d /\ current d' = current d /\ size d' = size d /\
      files w' = files w /\
      (List.length (history d')
       <= List.length (history d) + polls_of 30 + polls_of 10)%nat) /\
   (exists w' d',
      wait_for_page_load_safely 30 w = (Ret tt, w') /\ the_driver w' = Some d' /\
      handles d' = handles d /\ current d' = current d /\ size d' = size d /\
      files w' = files w /\
      (List.length (history d') <= List.length (history d) + polls_of 30)%nat)).
Proof.
  cbv zeta. split; [reflexivity|].
  apply (waits_are_bounded 30 (browser ["tab-1"] "tab-1" [])). reflexivity.
Defined.

(** ** Screenshots and the scratch directory *)






(** ** The paths through full-page capture *)

Ltac split_answering :=
  repeat match goal with
         | H : answering (_ :: _) |- _ => inversion H; clear H; subst
         | H : Forall _ (_ :: _) |- _ => inversion H; clear H; subst
         end.

Ltac use_answers :=
  repeat match goal with
         | F : fault _ = _ |- _ => rewrite F
         | F : py_le_zero _ = _ |- _ => rewrite F
         | F : py_int _ = _ |- _ => rewrite F
         end.

(** Run a handler against replies that are all known. *)
Ltac run_known :=
  do 16 (cbn [hd tl py_int]; use_answers; exec).

Lemma py_le_zero_int (v : pyval) (b : bool) :
  py_le_zero v = Ret b -> exists z, py_int v = Ret z.
Proof. destruct v; intros H; try discriminate H; eexists; reflexivity. Qed.

(** X16: when the page reports a scroll width that is not positive, or a
    positive width and a height that is not positive, and the driver
    answers, full-page capture resizes the window to 1920 x 1080, returns the
    capture taken at that size and puts the window back.  A width that is not
    positive settles it: the height is then not even compared. *)
Theorem full_page_capture_default_size (w : World) (d : WebDriver)
  (r0 r1 r2 r3 r4 r5 r6 r7 r8 : reply) (rest : list reply)
  (Hd : the_driver w = Some d)
  (Horc : oracle d = r0 :: r1 :: r2 :: r3 :: r4 :: r5 :: r6 :: r7 :: r8 :: rest)
  (Hans : answering [r0; r1; r2; r3; r4; r5; r6; r7; r8])
  (Hbad : py_le_zero (value r1) = Ret true \/
          (py_le_zero (value r1) = Ret false /\ py_le_zero (value r2) = Ret true)) :
  exists w' d',
    take_full_page_screenshot_safely w = (Ret (png r7), w') /\
    the_driver w' = Some d' /\ size d' = size d /\
    history d'
    = (CmdSetWindowSize (fst (size d)) (snd (size d)), r8)
      :: (CmdScreenshot, r7)
      :: (CmdSetWindowSize 1920 1080, r6)
      :: (CmdGetWindowSize, r5)
      :: (CmdExecuteScript "return window.innerHeight", r4)
      :: (CmdExecuteScript "return window.innerWidth", r3)
      :: (CmdExecuteScript "return document.body.scrollHeight", r2)
      :: (CmdExecuteScript "return document.body.scrollWidth", r1)
      :: (CmdScreenshot, r0) :: history d.
Proof.
  unfold take_full_page_screenshot_safely.
  destruct w as [dr lg ds fs us dk]; simpl in Hd; subst dr.
  destruct d as [dh cur [sw sh] orc hist]. cbn [oracle size history fst snd] in *. subst orc.
  split_answering.
  destruct Hbad as [Hw | [Hw Hh]]; exec; run_known;
    (do 2 eexists; repeat split; reflexivity).
Qed.

(** A page whose body reports no width: [scrollWidth] is 0 and
    [scrollHeight] is not even a number. *)
Example full_page_capture_collapsed_body :
  let w := browser ["tab-1"] "tab-1"
             [captures []; returns (PInt 0); returns PNone; returns (PInt 2560);
              returns (PInt 1300); default_reply; default_reply; captures png_magic;
              default_reply] in
  fst (take_full_page_screenshot_safely w) = Ret png_magic /\
  size_of (snd (take_full_page_screenshot_safely w)) = Some (2560, 1440) /\
  In (CmdSetWindowSize 1920 1080) (map fst (history_of (snd (take_full_page_screenshot_safely w)))).
Proof.
  cbv zeta. split; [vm_compute; reflexivity|]. split; [vm_compute; reflexivity|].
  vm_compute. tauto.
Qed.

Lemma full_page_capture_default_size_witness :
  let rs := [captures []; returns (PInt 0); returns PNone; returns (PInt 2560);
             returns (PInt 1300); default_reply; default_reply; captures png_magic;
             default_reply] in
  let w := browser ["tab-1"] "tab-1" rs in
  let d := mkDriver ["tab-1"] "tab-1" (2560, 1440) rs [] in
  (the_driver w = Some d /\ oracle d = rs /\ answering rs /\
   py_le_zero (value (returns (PInt 0))) = Ret true) /\
  exists w' d',
    take_full_page_screenshot_safely w = (Ret (png (captures png_magic)), w') /\
    the_driver w' = Some d' /\ size d' = size d /\
    history d'
    = (CmdSetWindowSize (fst (size d)) (snd (size d)), default_reply)
      :: (CmdScreenshot, captures png_magic)
      :: (CmdSetWindowSize 1920 1080, default_reply)
      :: (CmdGetWindowSize, default_reply)
      :: (CmdExecuteScript "return window.innerHeight", returns (PInt 1300))
      :: (CmdExecuteScript "return window.innerWidth", returns (PInt 2560))
      :: (CmdExecuteScript "return document.body.scrollHeight", returns PNone)
      :: (CmdExecuteScript "return document.body.scrollWidth", returns (PInt 0))
      :: (CmdScreenshot, captures []) :: history d.
Proof.
  cbv zeta.
  assert (Ha : answering [captures []; returns (PInt 0); returns PNone; returns (PInt 2560);
                          returns (PInt 1300); default_reply; default_reply;
                          captures png_magic; default_reply])
    by (repeat constructor).
  split; [repeat split; exact Ha|].
  apply (@full_page_capture_default_size
           (browser ["tab-1"] "tab-1"
              [captures []; returns (PInt 0); returns PNone; returns (PInt 2560);
               returns (PInt 1300); default_reply; default_reply; captures png_magic;
               default_reply])
           (mkDriver ["tab-1"] "tab-1" (2560, 1440)
              [captures []; returns (PInt 0); returns PNone; returns (PInt 2560);
               returns (PInt 1300); default_reply; default_reply; captures png_magic;
               default_reply] [])
           (captures []) (returns (PInt 0)) (returns PNone) (returns (PInt 2560))
           (returns (PInt 1300)) default_reply default_reply (captures png_magic)
           default_reply []);
    [reflexivity | reflexivity | exact Ha | left; reflexivity].
Defined.

(** X17: a full-page image can be taken and then thrown away.  When the
    resize and the capture after it succeed and the restoring resize throws,
    the handler's second restore attempt runs, and what is returned is the
    backup capture of the viewport, not the full-page capture; if the second
    attempt is answered the window is back at its size. *)
Theorem full_page_capture_discarded_on_restore_error (w : World) (d : WebDriver)
  (r0 r1 r2 r3 r4 r5 r6 r7 r8 r9 : reply) (rest : list reply) (e : exn)
  (Hd : the_driver w = Some d)
  (Horc : oracle d = r0 :: r1 :: r2 :: r3 :: r4 :: r5 :: r6 :: r7 :: r8 :: r9 :: rest)
  (Hans : answering [r0; r1; r2; r3; r4; r5; r6; r7; r9])
  (Hw : py_le_zero (value r1) = Ret false)
  (Hh : py_le_zero (value r2) = Ret false)
  (Hthrow : fault r8 = Some e) :
  exists w' d' rest',
    take_full_page_screenshot_safely w = (Ret (png r0), w') /\
    the_driver w' = Some d' /\ size d' = size d /\
    history d'
    = (CmdSetWindowSize (fst (size d)) (snd (size d)), r9)
      :: (CmdSetWindowSize (fst (size d)) (snd (size d)), r8)
      :: (CmdScreenshot, r7) :: rest'.
Proof.
  unfold take_full_page_screenshot_safely.
  destruct w as [dr lg ds fs us dk]; simpl in Hd; subst dr.
  destruct d as [dh cur [sw sh] orc hist]. cbn [oracle size history fst snd] in *. subst orc.
  destruct (py_le_zero_int _ Hw) as (tw & Htw).
  destruct (py_le_zero_int _ Hh) as (th & Hth).
  split_answering.
  exec. run_known.
  do 3 eexists. repeat split; reflexivity.
Qed.

Lemma full_page_capture_discarded_on_restore_error_witness :
  let full := [Byte.x89; Byte.x50; Byte.x4e; Byte.x47; Byte.x0d; Byte.x0a] in
  let rs := [captures png_magic; returns (PInt 1280); returns (PInt 4000);
             returns (PInt 2560); returns (PInt 1300); default_reply; default_reply;
             captures full; throws marionette_down; default_reply] in
  let w := browser ["tab-1"] "tab-1" rs in
  let d := mkDriver ["tab-1"] "tab-1" (2560, 1440) rs [] in
  (the_driver w = Some d /\ oracle d = rs /\
   answering [captures png_magic; returns (PInt 1280); returns (PInt 4000);
              returns (PInt 2560); returns (PInt 1300); default_reply; default_reply;
              captures full; default_reply] /\
   py_le_zero (PInt 1280) = Ret false /\ py_le_zero (PInt 4000) = Ret false /\
   fault (throws marionette_down) = Some marionette_down) /\
  exists w' d' rest',
    take_full_page_screenshot_safely w = (Ret png_magic, w') /\
    the_driver w' = Some d' /\ size d' = size d /\
    history d'
    = (CmdSetWindowSize 2560 1440, default_reply)
      :: (CmdSetWindowSize 2560 1440, throws marionette_down)
      :: (CmdScreenshot, captures full) :: rest'.
Proof.
  cbv zeta.
  assert (Ha : answering
                 [captures png_magic; returns (PInt 1280); returns (PInt 4000);
                  returns (PInt 2560); returns (PInt 1300); default_reply; default_reply;
                  captures [Byte.x89; Byte.x50; Byte.x4e; Byte.x47; Byte.x0d; Byte.x0a];
                  default_reply])
    by (repeat constructor).
  split; [repeat split; exact Ha|].
  apply (@full_page_capture_discarded_on_restore_error
           (browser ["tab-1"] "tab-1"
              [captures png_magic; returns (PInt 1280); returns (PInt 4000);
               returns (PInt 2560); returns (PInt 1300); default_reply; default_reply;
               captures [Byte.x89; Byte.x50; Byte.x4e; Byte.x47; Byte.x0d; Byte.x0a];
               throws marionette_down; default_reply])
           (mkDriver ["tab-1"] "tab-1" (2560, 1440)
              [captures png_magic; returns (PInt 1280); returns (PInt 4000);
               returns (PInt 2560); returns (PInt 1300); default_reply; default_reply;
               captures [Byte.x89; Byte.x50; Byte.x4e; Byte.x47; Byte.x0d; Byte.x0a];
               throws marionette_down; default_reply] [])
           (captures png_magic) (returns (PInt 1280)) (returns (PInt 4000))
           (returns (PInt 2560)) (returns (PInt 1300)) default_reply default_reply
           (captures [Byte.x89; Byte.x50; Byte.x4e; Byte.x47; Byte.x0d; Byte.x0a])
           (throws marionette_down) default_reply [] marionette_down);
    try reflexivity; exact Ha.
Defined.



(** What [int()] makes of strings. *)
Example int_of_strings :
  py_int (PStr "1280") = Ret 1280 /\ py_int (PStr " -12 ") = Ret (-12) /\
  py_int (PStr "1_000") = Ret 1000 /\
  (exists m, py_int (PStr "12px") = Raise (ValueError m)) /\
  (exists m, py_int (PStr "") = Raise (ValueError m)) /\
  (exists m, py_int (PStr "1__0") = Raise (ValueError m)) /\
  (exists m, py_int PNone = Raise (TypeError m)).
Proof. repeat split; try (eexists; reflexivity). Qed.

(** ** Stopping and starting *)

(** X19: shutting down with a session sends [driver.quit()].  If the quit
    is answered, the global is cleared and the status is "not running"; if
    it throws, the exception leaves the shutdown and the global still holds
    the driver, with the quit as the last command in its history. *)
Theorem shutdown_clears_after_quit (w : World) (d : WebDriver)
  (Hd : the_driver w = Some d) :
  exists r w',
    shutdown w = (r, w') /\ files w' = files w /\
    match fault (hd default_reply (oracle d)) with
    | None => r = Ret tt /\ the_driver w' = None /\ get_status w' = (Ret StatusStopped, w')
    | Some e =>
        r = Raise e /\
        exists d', the_driver w' = Some d' /\ handles d' = handles d /\
                   history d' = (CmdQuit, hd default_reply (oracle d)) :: history d
    end.
Proof.
  unfold shutdown. rewrite Hd.
  destruct w as [dr lg ds fs us dk]; simpl in Hd; subst dr.
  destruct d as [dh cur sz orc hist]. cbn [oracle handles history].
  exec. destruct (fault (hd default_reply orc)) eqn:F.
  - do 2 eexists. split; [reflexivity|]. split; [reflexivity|].
    split; [reflexivity|]. eexists; repeat split; reflexivity.
  - do 2 eexists. split; [reflexivity|]. split; [reflexivity|].
    split; [reflexivity|]. split; reflexivity.
Qed.

Lemma shutdown_clears_after_quit_witness :
  let w := browser ["tab-1"] "tab-1" [throws marionette_down] in
  let d := mkDriver ["tab-1"] "tab-1" (2560, 1440) [throws marionette_down] [] in
  the_driver w = Some d /\
  exists r w',
    shutdown w = (r, w') /\ files w' = files w /\
    r = Raise marionette_down /\
    exists d', the_driver w' = Some d' /\ handles d' = ["tab-1"] /\
               history d' = [(CmdQuit, throws marionette_down)].
Proof.
  cbv zeta. split; [reflexivity|].
  exact (shutdown_clears_after_quit (browser ["tab-1"] "tab-1" [throws marionette_down])
           eq_refl).
Defined.

Example shutdown_two_quiet_tabs :
  fst (shutdown two_quiet_tabs) = Ret tt /\
  the_driver (snd (shutdown two_quiet_tabs)) = None /\
  fst (get_status (snd (shutdown two_quiet_tabs))) = Ret StatusStopped.
Proof. repeat split. Qed.

Ltac launch_leaf :=
  do 2 eexists; (split; [reflexivity|]);
  (split; [first [left; split; reflexivity | right; split; reflexivity]|]);
  reflexivity.

(** What [init_driver] leaves behind when no driver was running. *)
Lemma init_driver_outcome (env : Launch) (w : World) :
  the_driver w = None ->
  exists r w',
    init_driver env w = (r, w') /\
    (dirs w' = dirs w /\ files w' = files w \/
     dirs w' = (geckodriver_dirs env ++ dirs w)%list /\
     files w' = (geckodriver_files env ++ files w)%list) /\
    match r with
    | Ret _ =>
        exists d0 d',
          firefox env firefox_options = Ret d0 /\ the_driver w' = Some d' /\
          size d' = (2560, 1440) /\ handles d' = handles d0 /\ current d' = current d0 /\
          exists polls r_size r_get,
            history d' = (polls ++ (CmdGet "https://www.bing.com/", r_get)
                                :: (CmdSetWindowSize 2560 1440, r_size) :: history d0)%list /\
            Forall is_script polls /\ fault r_size = None /\ fault r_get = None
    | Raise _ => the_driver w' = None
    end.
Proof.
  intros Hnone. unfold init_driver. rewrite Hnone.
  destruct w as [dr lg ds fs us dk]; simpl in Hnone; subst dr.
  unfold set_page_load_timeout, set_script_timeout, round_trip, assign_driver,
         WebDriverWait_until, install.
  destruct (taskkill env); destruct (geckodriver_install env);
    destruct (firefox env firefox_options) as [d0|efx];
    try (exec; launch_leaf);
    destruct d0 as [dh cur sz orc hist];
    exec; cbn [py_int];
    (on_fault; [on_fault; launch_leaf|]);
    (on_fault; [on_fault; launch_leaf|]);
    (on_fault; [on_fault; launch_leaf|]);
    (on_fault; [on_fault; launch_leaf|]);
    match goal with |- context [until ?n ready_state_complete ?x] =>
      pose proof (until_polled _ ready_state_complete_polled n x) as P;
      destruct (until n ready_state_complete x) as [[v1|e1] d1]; cbn [snd] in P;
      destruct P as [Ph Pc Ps _ (polls & Hp & Hs)];
      cbn [handles current size history] in Ph, Pc, Ps, Hp;
      destruct d1 as [dh1 cur1 sz1 orc1 hist1];
      cbn [handles current size history] in Ph, Pc, Ps, Hp;
      subst dh1 cur1 sz1 hist1
    end;
    exec;
    first [ do 2 eexists; split; [reflexivity|];
            split; [right; split; reflexivity|];
            do 2 eexists; split; [reflexivity|]; split; [reflexivity|];
            split; [reflexivity|]; split; [reflexivity|]; split; [reflexivity|];
            exists polls; do 2 eexists; split; [reflexivity|];
            split; [exact Hs|]; split; assumption
          | on_fault; launch_leaf ].
Qed.

Example init_driver_healthy :
  fst (init_driver healthy_machine no_browser) = Ret tt /\
  size_of (snd (init_driver healthy_machine no_browser)) = Some (2560, 1440) /\
  map fst (history_of (snd (init_driver healthy_machine no_browser)))
  = [CmdExecuteScript "return document.readyState"; CmdGet "https://www.bing.com/";
     CmdSetWindowSize 2560 1440] /\
  files (snd (init_driver healthy_machine no_browser)) = [(".wdm/geckodriver.exe", [])].
Proof. repeat split; vm_compute; reflexivity. Qed.

Example init_driver_stuck :
  fst (init_driver stuck_machine no_browser) = Raise (TimeoutException "Message: ") /\
  the_driver (snd (init_driver stuck_machine no_browser)) = None.
Proof. split; vm_compute; reflexivity. Qed.

(** X20: [init_driver] is all or nothing for the global [driver].  Started
    without a driver, it either returns with the global holding the launched
    browser, to which it has sent the resize to 2560 x 1440, the navigation
    to the start page and then only readiness polls, all answered, with the
    window at 2560 x 1440 and the tabs as launched; or it raises with the
    global still empty. *)
Theorem init_driver_all_or_nothing (env : Launch) (w : World)
  (Hnone : the_driver w = None) :
  exists r w',
    init_driver env w = (r, w') /\
    match r with
    | Ret _ =>
        exists d0 d',
          firefox env firefox_options = Ret d0 /\ the_driver w' = Some d' /\
          size d' = (2560, 1440) /\ handles d' = handles d0 /\ current d' = current d0 /\
          exists polls r_size r_get,
            history d' = (polls ++ (CmdGet "https://www.bing.com/", r_get)
                                :: (CmdSetWindowSize 2560 1440, r_size) :: history d0)%list /\
            Forall is_script polls /\ fault r_size = None /\ fault r_get = None
    | Raise _ => the_driver w' = None
    end.
Proof.
  destruct (init_driver_outcome env w Hnone) as (r & w' & E & _ & Hr).
  exists r, w'. split; [exact E | exact Hr].
Qed.

Lemma init_driver_all_or_nothing_witness :
  the_driver no_browser = None /\
  exists r w',
    init_driver healthy_machine no_browser = (r, w') /\
    match r with
    | Ret _ =>
        exists d0 d',
          firefox healthy_machine firefox_options = Ret d0 /\ the_driver w' = Some d' /\
          size d' = (2560, 1440) /\ handles d' = handles d0 /\ current d' = current d0 /\
          exists polls r_size r_get,
            history d' = (polls ++ (CmdGet "https://www.bing.com/", r_get)
                                :: (CmdSetWindowSize 2560 1440, r_size) :: history d0)%list /\
            Forall is_script polls /\ fault r_size = None /\ fault r_get = None
    | Raise _ => the_driver w' = None
    end.
Proof.
  split; [reflexivity|].
  exact (init_driver_all_or_nothing healthy_machine no_browser eq_refl).
Defined.

(** X21: starting twice.  After an [init_driver] that returned, another
    [init_driver], on whatever machine, launches nothing and changes
    nothing. *)
Theorem init_driver_twice (env env' : Launch) (w : World)
  (Hstarted : fst (init_driver env w) = Ret tt) :
  init_driver env' (snd (init_driver env w)) = (Ret tt, snd (init_driver env w)).
Proof.
  destruct (the_driver w) as [d|] eqn:E.
  - assert (H : init_driver env w = (Ret tt, w)) by (unfold init_driver; rewrite E; reflexivity).
    rewrite H. cbn [snd]. unfold init_driver. rewrite E. reflexivity.
  - destruct (init_driver_outcome env w E) as (r & w' & Heq & _ & Hr).
    rewrite Heq in Hstarted |- *. cbn [fst snd] in *. subst r.
    destruct Hr as (d0 & d' & _ & Hd' & _).
    unfold init_driver. rewrite Hd'. reflexivity.
Qed.

Lemma init_driver_twice_witness :
  fst (init_driver healthy_machine no_browser) = Ret tt /\
  init_driver stuck_machine (snd (init_driver healthy_machine no_browser))
  = (Ret tt, snd (init_driver healthy_machine no_browser)).
Proof.
  assert (H : fst (init_driver healthy_machine no_browser) = Ret tt)
    by (vm_compute; reflexivity).
  split; [exact H|].
  exact (init_driver_twice healthy_machine stuck_machine no_browser H).
Defined.

(** X22: the application starts whether or not the browser does.
    [lifespan]'s startup never raises: a failed launch is logged and the
    service comes up with no driver, so that every later call is answered
    "not running" rather than the process dying. *)
Theorem lifespan_startup_never_raises (env : Launch) (w : World) :
  exists w',
    lifespan_startup env w = (Ret tt, w') /\
    the_driver w' = the_driver (snd (init_driver env w)) /\
    files w' = files (snd (init_driver env w)) /\
    (the_driver w = None ->
     (exists e, fst (init_driver env w) = Raise e) ->
     get_status w' = (Ret StatusStopped, w')).
Proof.
  unfold lifespan_startup, try_except, bind.
  destruct (the_driver w) as [d|] eqn:E.
  - assert (H : init_driver env w = (Ret tt, w)) by (unfold init_driver; rewrite E; reflexivity).
    rewrite H. cbn [snd logger]. eexists. split; [reflexivity|].
    split; [reflexivity|]. split; [reflexivity|]. intros Hn; discriminate Hn.
  - destruct (init_driver_outcome env w E) as (r & w' & Heq & _ & Hr).
    rewrite Heq. cbn [fst snd]. destruct r as [[]|e].
    + cbn [logger]. eexists. split; [reflexivity|]. split; [reflexivity|].
      split; [reflexivity|]. intros _ [e He]; discriminate He.
    + cbn [logger]. eexists. split; [reflexivity|]. split; [reflexivity|].
      split; [reflexivity|]. intros _ _.
      unfold get_status. cbn [the_driver]. rewrite Hr. reflexivity.
Qed.

(** ** The current tab is an open tab *)












(** A script of the caller's closes the current tab: the current handle is
    left dangling. *)
Example execute_script_closes_current_tab :
  let w' := snd (execute_script (mkScriptRequest "window.close(); throw new Error('done')")
                   (browser ["tab-1"; "tab-2"] "tab-1" [closes_tab_then_throws])) in
  option_map current_open (the_driver w') = Some false /\
  option_map handles (the_driver w') = Some ["tab-2"].
Proof. split; reflexivity. Qed.
